(** * The crime-outcome pipeline (pipeline.py), embedded in Rocq

    The script is a three-stage batch transform over pandas tables.  The
    embedding keeps its shape:

    - a cell is text, an integer or the null marker ([NaN]); a table row is
      a finite map from column labels to cells, a table is its list of column
      labels together with its rows in order.  A cell that a row does not
      hold reads as null, which is how pandas pads a short line;
    - Python exceptions are values of [exn]; code that can raise returns a
      [result];
    - the functions that touch the disk or the log run in a small state
      monad over [world] (files and log), exceptions included;
    - pandas' CSV codec ([read_csv], [to_csv]) is external to the script and
      is taken as a parameter of the stateful part.

    What is assumed of pandas is its documented relational behaviour: a left
    merge keeps the order of the left rows, emits one row per matching right
    row and one null-padded row when nothing matches, and matches null keys
    with null keys; [groupby(...).size()] drops rows having a null key and
    lists the observed keys in ascending order; [drop] raises on an unknown
    label.  Column dtypes and the timestamp of a log line are not modelled:
    the statements that depend on a dtype (a merge of a text identifier column
    with a numeric one, integers turned into floats beside nulls) carry a
    hypothesis that keeps the cells concerned to text and nulls. *)

From stdpp Require Import gmap strings list fin_maps sorting.

Local Open Scope string_scope.
Local Open Scope list_scope.
Local Open Scope nat_scope.

(** ** Cells, exceptions, results *)

Inductive value :=
  | NaN
  | Str (s : string)
  | Int (z : Z).

Global Instance value_eq_dec : EqDecision value.
Proof. solve_decision. Defined.

(** [pd.notnull] on a scalar. *)
Definition notnull (v : value) : bool :=
  match v with NaN => false | _ => true end.

(** Python's [==] between two cells: the null marker equals nothing, itself
    included. *)
Definition py_eq (a b : value) : bool :=
  match a, b with
  | Str s, Str t => bool_decide (s = t)
  | Int x, Int y => bool_decide (x = y)
  | _, _ => false
  end.

(** [x in [s1, ..., sn]] for a list of string literals. *)
Definition py_in (x : value) (l : list string) : bool :=
  existsb (λ s, py_eq x (Str s)) l.

(** The exception classes the script can meet.  [ParserError],
    [EmptyDataError] and [UnicodeDecodeError] are what [pd.read_csv] raises
    on content it cannot parse; all three derive from [ValueError]. *)
Inductive exn_class :=
  | ValueError
  | ParserError
  | EmptyDataError
  | UnicodeDecodeError
  | KeyError
  | AttributeError
  | OSError
  | MemoryError.

Global Instance exn_class_eq_dec : EqDecision exn_class.
Proof. solve_decision. Defined.

Record exn := Exn { exn_cls : exn_class; exn_msg : string }.

(** [isinstance(e, ValueError)] *)
Definition is_ValueError (e : exn) : bool :=
  match exn_cls e with
  | ValueError | ParserError | EmptyDataError | UnicodeDecodeError => true
  | _ => false
  end.

(** The classes raised for unparsable content. *)
Definition is_parse_failure (e : exn) : bool :=
  match exn_cls e with
  | ParserError | EmptyDataError | UnicodeDecodeError => true
  | _ => false
  end.

Inductive result (A : Type) :=
  | Ret (a : A)
  | Raise (e : exn).
Arguments Ret {A} a.
Arguments Raise {A} e.

Global Instance result_ret : MRet result := λ A a, Ret a.

Global Instance result_bind : MBind result := λ A B k m,
  match m with
  | Ret a => k a
  | Raise e => Raise e
  end.

(** [repr] of a Python string without backslashes or control characters:
    single quotes, or double quotes when the text holds a single quote and no
    double quote.  (Escaping inside the quotes is not modelled.) *)
Definition dquote : string := String (Ascii.ascii_of_nat 34) EmptyString.

Definition py_repr (s : string) : string :=
  match String.index 0 "'" s, String.index 0 dquote s with
  | Some _, None => dquote +:+ s +:+ dquote
  | _, _ => "'" +:+ s +:+ "'"
  end.

(** [repr] of a list of strings. *)
Definition py_list_repr (l : list string) : string :=
  "[" +:+ String.concat ", " (py_repr <$> l) +:+ "]".

(** [str(e)].  [exn_msg] holds the argument the exception was built with; a
    KeyError prints the [repr] of its argument, the other classes print the
    argument itself. *)
Definition exn_str (e : exn) : string :=
  match exn_cls e with
  | KeyError => py_repr (exn_msg e)
  | _ => exn_msg e
  end.

(** ** Tables *)

Abbreviation row := (gmap string value).

Record DataFrame := Frame { columns : list string; rows : list row }.

Definition cell (r : row) (c : string) : value := default NaN (r !! c).

Definition has_column (c : string) (df : DataFrame) : bool :=
  bool_decide (c ∈ columns df).

(** [row[c]] inside a row-wise [apply]: the row is indexed by the table's
    column labels. *)
Definition getitem (df : DataFrame) (r : row) (c : string) : result value :=
  if has_column c df then Ret (cell r c) else Raise (Exn KeyError c).

(** [df[c] = series] : an existing column is overwritten in place, a new one
    is appended on the right.  Both callers pass one value per row. *)
Definition setitem (c : string) (vs : list value) (df : DataFrame) : DataFrame :=
  {| columns := if has_column c df then columns df else columns df ++ [c];
     rows := zip_with (λ r v, <[c:=v]> r) (rows df) vs |}.

(** [df.apply(f, axis=1)] : [f] is called on each row in order; the first
    exception ends the call.  On a table without rows [f] is not called on
    any row and the result is the empty series. *)
Definition apply_rows (f : row → result value) (df : DataFrame)
  : result (list value) :=
  mapM f (rows df).

(** ** Column labels used by the script *)

Definition Crime_ID := "Crime ID".
Definition Outcome_type := "Outcome type".
Definition Last_outcome_category := "Last outcome category".
Definition Final_Outcome := "Final Outcome".
Definition Broad_Outcome_Category := "Broad Outcome Category".
Definition Crime_type := "Crime type".
Definition Count := "Count".

(** ** finaloutcome *)

(** The lambda of [finaloutcome] on one row, and the assignment of the
    series [df.apply] makes of its answers.  Two things pandas does with that
    series are outside this model: on a table without rows it does not call
    the lambda on any row (and, when a source column is missing, hands back a
    table that the assignment rejects), and a series of integers and nulls is
    stored as floats.  The statements below that would depend on either are
    about tables with rows, or with text and null source cells. *)
Definition finaloutcome_row (df : DataFrame) (r : row) : result value :=
  ot ← getitem df r Outcome_type ;
  if notnull ot then Ret ot else getitem df r Last_outcome_category.

Definition finaloutcome (df : DataFrame) : result DataFrame :=
  vs ← apply_rows (finaloutcome_row df) df;
  Ret (setitem Final_Outcome vs df).

(** ** categorize_outcome, apply_categorization *)

Definition no_action_outcomes : list string :=
  [ "Unable to prosecute suspect";
    "Investigation complete; no suspect identified";
    "Status update unavailable" ].

Definition non_criminal_outcomes : list string :=
  [ "Local resolution";
    "Offender given a caution";
    "Action to be taken by another organisation";
    "Awaiting court outcome" ].

Definition public_interest_outcomes : list string :=
  [ "Further investigation is not in the public interest";
    "Further action is not in the public interest";
    "Formal action is not in the public interest" ].

Definition categorize_outcome (outcome : value) : string :=
  if py_in outcome no_action_outcomes then "No Further Action"
  else if py_in outcome non_criminal_outcomes then "Non-criminal Outcome"
  else if py_in outcome public_interest_outcomes then "Public Interest Consideration"
  else "Unknown".

(** [df[c]] : the column as a list of cells. *)
Definition getcolumn (c : string) (df : DataFrame) : result (list value) :=
  if has_column c df then Ret ((λ r, cell r c) <$> rows df)
  else Raise (Exn KeyError c).

Definition apply_categorization (df : DataFrame) : result DataFrame :=
  fo ← getcolumn Final_Outcome df;
  Ret (setitem Broad_Outcome_Category
         ((λ v, Str (categorize_outcome v)) <$> fo) df).

(** ** merge_data *)

(** Key equality of [pd.merge]: unlike [==], two null keys match. *)
Definition key_eq (a b : value) : bool := bool_decide (a = b).

(** The cells of [r] under the labels [cs]. *)
Definition project (cs : list string) (r : row) : row :=
  foldr (λ c m, <[c := cell r c]> m) ∅ cs.

(** The argument of the KeyError raised by [df[[c1, ..., cn]]] when the
    labels [missing] among [cs] are not columns. *)
Definition not_in_index (cs missing : list string) : string :=
  if bool_decide (missing = cs) then
    "None of [Index(" +:+ py_list_repr cs
      +:+ ", dtype='object')] are in the [columns]"
  else py_list_repr missing +:+ " not in index".

(** [df[[c1, ..., cn]]] *)
Definition getcolumns (cs : list string) (df : DataFrame) : result DataFrame :=
  match filter (λ c, c ∉ columns df) cs with
  | [] => Ret {| columns := cs; rows := project cs <$> rows df |}
  | c :: k => Raise (Exn KeyError (not_in_index cs (c :: k)))
  end.

Section merge.
Variables (left right : DataFrame) (on : string).

(** The columns the right table brings in, and those among them whose
    label the left table already uses: pandas tells these apart with the
    suffixes [_x] (left) and [_y] (right). *)
Definition payload : list string := filter (λ c, c ≠ on) (columns right).
Definition overlap : list string := filter (λ c, c ∈ columns left) payload.

Definition left_label (c : string) : string :=
  if bool_decide (c ∈ overlap) then c +:+ "_x" else c.
Definition right_label (c : string) : string :=
  if bool_decide (c ∈ overlap) then c +:+ "_y" else c.

Definition left_cells (l : row) : row :=
  foldr (λ c m, <[left_label c := cell l c]> m) ∅ (columns left).

(** The right-hand cells of a joined row: those of the matching right row,
    or nulls when there is none. *)
Definition right_cells (o : option row) (m : row) : row :=
  foldr (λ c m, <[right_label c := from_option (λ r, cell r c) NaN o]> m)
        m payload.

Definition matches (l : row) : list row :=
  filter (λ r, key_eq (cell l on) (cell r on) = true) (rows right).

Definition join_row (l : row) : list row :=
  match matches l with
  | [] => [right_cells None (left_cells l)]
  | ms => (λ r, right_cells (Some r) (left_cells l)) <$> ms
  end.

(** [pd.merge(left, right, how='left', on=on)].  pandas refuses to merge a
    key column of text with a numeric one (ValueError); dtypes are not part
    of this model, and the statements on the merge are about tables whose key
    columns both hold text. *)
Definition pd_merge_left : result DataFrame :=
  if has_column on left && has_column on right then
    Ret {| columns := (left_label <$> columns left) ++ (right_label <$> payload);
           rows := rows left ≫= join_row |}
  else Raise (Exn KeyError on).
End merge.

Definition merge_data (df df_outcomes : DataFrame) : result DataFrame :=
  sel ← getcolumns [Crime_ID; Outcome_type] df_outcomes;
  pd_merge_left df sel Crime_ID.

(** ** del_values_street *)

(** [df.drop(columns=cs)] *)
Definition drop_columns (cs : list string) (df : DataFrame) : result DataFrame :=
  match filter (λ c, c ∉ columns df) cs with
  | [] => Ret {| columns := filter (λ c, c ∉ cs) (columns df);
                 rows := (λ r, foldr delete r cs) <$> rows df |}
  | c :: k => Raise (Exn KeyError (py_list_repr (c :: k) +:+ " not found in axis"))
  end.

Definition cols_to_delete : list string := ["Reported by"; "Context"; "Location"].

Definition del_values_street (df : DataFrame) : result DataFrame :=
  drop_columns cols_to_delete df.

(** The two transformations of [stage_data], before the table is written. *)
Definition stage_transform (df df_outcomes : DataFrame) : result DataFrame :=
  df ← merge_data df df_outcomes;
  del_values_street df.

(** The two transformations of [processing_data]. *)
Definition processing_transform (df : DataFrame) : result DataFrame :=
  df ← finaloutcome df;
  apply_categorization df.

(** ** The aggregation of reporting_data *)

(** The order in which pandas lists group keys: integers by value, text by
    code point, integers before text.  Null keys never reach the sort; they
    are placed last to make the order total. *)
Definition value_leb (a b : value) : bool :=
  match a, b with
  | Int x, Int y => bool_decide (x ≤ y)%Z
  | Int _, _ => true
  | Str _, Int _ => false
  | Str s, Str t => String.leb s t
  | Str _, NaN => true
  | NaN, NaN => true
  | NaN, _ => false
  end.

Definition key : Type := value * value.

Definition key_leb (j k : key) : bool :=
  if decide (j.1 = k.1) then value_leb j.2 k.2 else value_leb j.1 k.1.

Definition key_le (j k : key) : Prop := key_leb j k.
Definition key_lt (j k : key) : Prop := key_le j k ∧ j ≠ k.

Global Instance key_le_dec : RelDecision key_le.
Proof. intros j k. unfold key_le. apply _. Defined.

Definition key_notnull (k : key) : bool := notnull k.1 && notnull k.2.

(** The row [reset_index] makes of a group. *)
Definition group_row (by1 by2 name : string) (k : key) (n : nat) : row :=
  {[ by1 := k.1; by2 := k.2; name := Int (Z.of_nat n) ]}.

Section groupby.
Variables (by1 by2 : string) (df : DataFrame).

Definition group_key (r : row) : key := (cell r by1, cell r by2).

(** The keys of the rows that take part: a null in either key column
    leaves the row out ([dropna=True]). *)
Definition grouped_keys : list key :=
  filter (λ k, key_notnull k = true) (group_key <$> rows df).

(** The groups in the order they are listed ([sort=True]). *)
Definition group_index : list key :=
  merge_sort key_le (remove_dups grouped_keys).

Definition group_size (k : key) : nat :=
  length (filter (λ j, j = k) grouped_keys).

(** [df.groupby([by1, by2]).size().reset_index(name=name)] *)
Definition groupby_size (name : string) : result DataFrame :=
  if has_column by1 df then
    if has_column by2 df then
      Ret {| columns := [by1; by2; name];
             rows := (λ k, group_row by1 by2 name k (group_size k))
                     <$> group_index |}
    else Raise (Exn KeyError by2)
  else Raise (Exn KeyError by1).
End groupby.

Definition reporting_aggregate (df : DataFrame) : result DataFrame :=
  groupby_size Crime_type Broad_Outcome_Category df Count.

(** ** Files, log and the monad of the stateful functions *)

Inductive level := INFO | ERROR | CRITICAL.

Global Instance level_eq_dec : EqDecision level.
Proof. solve_decision. Defined.

(** [files] maps a path, as written, to the content of the data file stored
    there; [log] is the sequence of lines appended to the log file, each with
    its severity. *)
Record world := World { files : gmap string string; log : list (level * string) }.

Definition M (A : Type) : Type := world → result A * world.

Global Instance M_ret : MRet M := λ A a w, (Ret a, w).

Global Instance M_bind : MBind M := λ A B k m w,
  match m w with
  | (Ret a, w') => k a w'
  | (Raise e, w') => (Raise e, w')
  end.

Definition lift {A} (r : result A) : M A := λ w, (r, w).

(** [try: body except C as e: handler] where [catches] tells whether an
    exception is an instance of [C]. *)
Definition try_except {A} (body : M A) (catches : exn → bool)
    (handler : exn → M A) : M A := λ w,
  match body w with
  | (Raise e, w') => if catches e then handler e w' else (Raise e, w')
  | r => r
  end.

(** Every class of [exn_class] derives from [Exception]. *)
Definition is_Exception (e : exn) : bool := true.

Definition logging (lvl : level) (msg : string) : M unit := λ w,
  (Ret (), {| files := files w; log := log w ++ [(lvl, msg)] |}).

Definition os_path_exists (p : string) : M bool := λ w,
  (Ret (bool_decide (is_Some (files w !! p))), w).

(** Attribute access on a value that may be [None]. *)
Definition attribute (name : string) (o : option DataFrame) : result DataFrame :=
  match o with
  | Some df => Ret df
  | None => Raise (Exn AttributeError
              ("'NoneType' object has no attribute '" +:+ name +:+ "'"))
  end.

(** Constants *)
Definition LOCAL_DATA_PATH := "./".
Definition RAW_DATA_FILE := LOCAL_DATA_PATH +:+ "2022-01-cheshire-street.csv".
Definition OUTCOMES_DATA_FILE := LOCAL_DATA_PATH +:+ "2022-01-cheshire-outcomes.csv".
Definition STAGED_DATA_FILE := LOCAL_DATA_PATH +:+ "staged_cheshire_street.csv".
Definition PROCESSING_DATA_FILE := LOCAL_DATA_PATH +:+ "processed_cheshire_street.csv".
Definition REPORTING_DATA_FILE := LOCAL_DATA_PATH +:+ "reporting_cheshire_street.csv".

Section pipeline.
(** pandas' CSV codec: what [pd.read_csv] makes of a file's content, and
    the text [DataFrame.to_csv(index=False)] writes for a table. *)
Variable read_csv : string → result DataFrame.
Variable to_csv : DataFrame → string.

(** What stands in the way of writing a file at a path: the exception
    [DataFrame.to_csv] raises there (the path is a directory, its folder is
    missing or read-only), or nothing. *)
Variable write_error : string → option exn.

Definition pd_read_csv (p : string) : M DataFrame := λ w,
  match files w !! p with
  | Some content => (read_csv content, w)
  | None => (Raise (Exn OSError p), w)
  end.

Definition df_to_csv (df : DataFrame) (p : string) : M unit := λ w,
  match write_error p with
  | Some e => (Raise e, w)
  | None => (Ret (), {| files := <[p := to_csv df]> (files w); log := log w |})
  end.

Definition ingest_data (file_path : string) : M (option DataFrame) :=
  logging INFO ("Starting data ingestion from " +:+ file_path);;
  found ← os_path_exists file_path;
  if negb found then
    logging ERROR ("File not found: " +:+ file_path);;
    mret None
  else
    try_except
      (df ← pd_read_csv file_path;
       logging INFO ("Data ingestion from " +:+ file_path
                     +:+ " completed successfully");;
       mret (Some df))
      is_ValueError
      (λ e, logging ERROR ("Error reading the CSV file " +:+ file_path
                           +:+ ": " +:+ exn_str e);;
            mret None).

Definition stage_data (df df_outcomes : DataFrame) (output_file : string)
  : M unit :=
  logging INFO "Starting data staging";;
  try_except
    (df ← lift (merge_data df df_outcomes);
     df ← lift (del_values_street df);
     df_to_csv df output_file;;
     logging INFO "Data staging completed successfully")
    is_Exception
    (λ e, logging ERROR ("Error during data staging: " +:+ exn_str e)).

Definition processing_data (df : option DataFrame) (output_file : string)
  : M unit :=
  logging INFO "Starting Data Processing";;
  try_except
    (df ← lift (attribute "apply" df);
     df ← lift (finaloutcome df);
     df ← lift (apply_categorization df);
     df_to_csv df output_file;;
     logging INFO "Data Processing completed successfully")
    is_Exception
    (λ e, logging ERROR ("Error during data processing: " +:+ exn_str e)).

Definition reporting_data (df : option DataFrame) (output_file : string)
  : M unit :=
  logging INFO "Starting reporting data aggregation";;
  try_except
    (df ← lift (attribute "groupby" df);
     agg_df ← lift (reporting_aggregate df);
     df_to_csv agg_df output_file;;
     logging INFO "Reporting data aggregation completed successfully")
    is_Exception
    (λ e, logging ERROR ("Error during reporting data aggregation: "
                         +:+ exn_str e)).

Definition main : M unit :=
  logging INFO "Pipeline execution started";;
  try_except
    (df ← ingest_data RAW_DATA_FILE;
     df_outcomes ← ingest_data OUTCOMES_DATA_FILE;
     match df, df_outcomes with
     | Some df, Some df_outcomes =>
         stage_data df df_outcomes STAGED_DATA_FILE;;
         df_staged ← ingest_data STAGED_DATA_FILE;
         processing_data df_staged PROCESSING_DATA_FILE;;
         df_primary ← ingest_data PROCESSING_DATA_FILE;
         reporting_data df_primary REPORTING_DATA_FILE
     | _, _ => mret ()
     end;;
     logging INFO "Pipeline execution completed successfully")
    is_Exception
    (λ e, logging CRITICAL ("Pipeline execution failed: " +:+ exn_str e)).

(** The body of the [if] of [main]: the three stages, each fed with the
    file the previous one wrote. *)
Definition run_stages (df df_outcomes : DataFrame) : M unit :=
  stage_data df df_outcomes STAGED_DATA_FILE;;
  df_staged ← ingest_data STAGED_DATA_FILE;
  processing_data df_staged PROCESSING_DATA_FILE;;
  df_primary ← ingest_data PROCESSING_DATA_FILE;
  reporting_data df_primary REPORTING_DATA_FILE.
End pipeline.

(** ** The effect of a run on the files *)

Section file_effects.
Variable read_csv : string → result DataFrame.
Variable to_csv : DataFrame → string.
Variable write_error : string → option exn.

(** What a stage leaves on disk: the table it computed, written at its
    output path, or nothing new when the computation raised or the file
    could not be written. *)
Definition write_result (out : string) (r : result DataFrame)
    (fs : gmap string string) : gmap string string :=
  match r, write_error out with
  | Ret df, None => <[out := to_csv df]> fs
  | _, _ => fs
  end.

(** What [ingest_data] returns, as a function of the file found at its
    path. *)
Definition ingest_outcome (o : option string) : result (option DataFrame) :=
  match o with
  | None => Ret None
  | Some content =>
      match read_csv content with
      | Ret df => Ret (Some df)
      | Raise e => if is_ValueError e then Ret None else Raise e
      end
  end.

(** The files left by the three stages, and by [main]. *)
Definition stages_files (df df_outcomes : DataFrame)
    (fs : gmap string string) : gmap string string :=
  let fs1 := write_result STAGED_DATA_FILE (stage_transform df df_outcomes) fs in
  match ingest_outcome (fs1 !! STAGED_DATA_FILE) with
  | Raise _ => fs1
  | Ret df_staged =>
      let fs2 := write_result PROCESSING_DATA_FILE
                   (attribute "apply" df_staged ≫= processing_transform) fs1 in
      match ingest_outcome (fs2 !! PROCESSING_DATA_FILE) with
      | Raise _ => fs2
      | Ret df_primary =>
          write_result REPORTING_DATA_FILE
            (attribute "groupby" df_primary ≫= reporting_aggregate) fs2
      end
  end.

Definition main_files (fs : gmap string string) : gmap string string :=
  match ingest_outcome (fs !! RAW_DATA_FILE),
        ingest_outcome (fs !! OUTCOMES_DATA_FILE) with
  | Ret (Some df), Ret (Some df_outcomes) => stages_files df df_outcomes fs
  | _, _ => fs
  end.
End file_effects.

(** ** Notions used in the statements *)

(** The value the lambda of [finaloutcome] computes on a row. *)
Definition resolved_outcome (r : row) : value :=
  if notnull (cell r Outcome_type) then cell r Outcome_type
  else cell r Last_outcome_category.

(** A cell is one of the strings of a list. *)
Definition listed (v : value) (l : list string) : Prop :=
  ∃ s, v = Str s ∧ s ∈ l.

Definition primary_schema (df : DataFrame) : bool :=
  has_column Crime_ID df && forallb (λ c, has_column c df) cols_to_delete
  && negb (has_column Outcome_type df).

Definition outcomes_schema (df : DataFrame) : bool :=
  has_column Crime_ID df && has_column Outcome_type df.

(** The outcome records that carry the crime identifier of a primary row. *)
Definition matching (df_outcomes : DataFrame) (l : row) : list row :=
  filter (λ o, key_eq (cell l Crime_ID) (cell o Crime_ID) = true)
         (rows df_outcomes).

(** The rows a primary row contributes to the merged table. *)
Definition joined (df df_outcomes : DataFrame) (l : row) : list row :=
  match matching df_outcomes l with
  | [] => [<[Outcome_type := NaN]> (project (columns df) l)]
  | ms => (λ o, <[Outcome_type := cell o Outcome_type]> (project (columns df) l))
          <$> ms
  end.

Definition trim (r : row) : row := foldr delete r cols_to_delete.

(** The 'Outcome type' cells the rows made of a primary row receive, in
    order: those of the outcome records carrying its crime identifier, or one
    null when there is none. *)
Definition outcome_cells (df_outcomes : DataFrame) (l : row) : list value :=
  match matching df_outcomes l with
  | [] => [NaN]
  | ms => (λ o, cell o Outcome_type) <$> ms
  end.

(** A column that holds at least one text cell, which is what makes pandas
    store it as objects, and a column that holds text and nulls only. *)
Definition is_text (v : value) : bool :=
  match v with Str _ => true | _ => false end.

Definition is_number (v : value) : bool :=
  match v with Int _ => true | _ => false end.

Definition text_column (c : string) (df : DataFrame) : bool :=
  existsb (λ r, is_text (cell r c)) (rows df).

Definition text_or_null_column (c : string) (df : DataFrame) : bool :=
  forallb (λ r, negb (is_number (cell r c))) (rows df).

(** The grouping key of a row of the processed table, and the keys of a
    table, row by row. *)
Definition report_key (r : row) : key :=
  group_key Crime_type Broad_Outcome_Category r.

Definition keys_of (df : DataFrame) : list key := report_key <$> rows df.

(** The number an aggregate row carries under 'Count', and their sum. *)
Definition count_of (r : row) : nat :=
  match cell r Count with
  | Int z => Z.to_nat z
  | _ => 0
  end.

Definition total_count (agg : DataFrame) : nat :=
  sum_list_with count_of (rows agg).

(** ** Sample tables and a sample codec *)

Module Sample.
(** A staged table of three records: an outcome supplied by the outcomes
    file, a record that only has its raw category, and one with neither. *)
Definition staged : DataFrame :=
  Frame [Crime_ID; Crime_type; Last_outcome_category; Outcome_type]
    [ {[ Crime_ID := Str "1"; Crime_type := Str "Burglary";
         Last_outcome_category := Str "Under investigation";
         Outcome_type := Str "Local resolution" ]};
      {[ Crime_ID := Str "2"; Crime_type := Str "Burglary";
         Last_outcome_category := Str "Investigation complete; no suspect identified";
         Outcome_type := NaN ]};
      {[ Crime_ID := NaN; Crime_type := Str "Anti-social behaviour";
         Last_outcome_category := NaN; Outcome_type := NaN ]} ].
End Sample.

Module Sample_codec.
(** A small stand-in for pandas' codec, used to run the stateful functions
    on concrete files: an empty file has no columns to parse, a file made
    of one header line is a table with that single column and no rows. *)
Definition read_csv (content : string) : result DataFrame :=
  if bool_decide (content = EmptyString) then
    Raise (Exn EmptyDataError "No columns to parse from file")
  else Ret (Frame [content] []).

Definition to_csv (df : DataFrame) : string :=
  foldr (λ c s, c +:+ "," +:+ s) EmptyString (columns df).

(** Every path can be written. *)
Definition write_error (p : string) : option exn := None.
End Sample_codec.

Module Sample_join.
Definition primary : DataFrame :=
  Frame [Crime_ID; "Reported by"; "Location"; Crime_type;
         Last_outcome_category; "Context"]
    [ {[ Crime_ID := Str "1"; "Reported by" := Str "Cheshire Constabulary";
         "Location" := Str "On or near High Street";
         Crime_type := Str "Burglary";
         Last_outcome_category := Str "Under investigation";
         "Context" := NaN ]} ].

(** One outcome for the record. *)
Definition outcomes : DataFrame :=
  Frame [Crime_ID; Outcome_type]
    [ {[ Crime_ID := Str "1"; Outcome_type := Str "Local resolution" ]} ].

(** Two outcomes recorded for the same crime. *)
Definition outcomes_twice : DataFrame :=
  Frame [Crime_ID; Outcome_type]
    [ {[ Crime_ID := Str "1"; Outcome_type := Str "Suspect charged" ]};
      {[ Crime_ID := Str "1"; Outcome_type := Str "Offender given a caution" ]} ].
End Sample_join.

Module Scenario.
(** The end-to-end scenario of the specification: one burglary whose
    outcomes record carries no outcome type. *)
Definition primary : DataFrame :=
  Frame [Crime_ID; "Reported by"; "Location"; Crime_type;
         Last_outcome_category; "Context"]
    [ {[ Crime_ID := Str "1"; "Reported by" := Str "Cheshire Constabulary";
         "Location" := Str "On or near High Street";
         Crime_type := Str "Burglary";
         Last_outcome_category :=
           Str "Investigation complete; no suspect identified";
         "Context" := NaN ]} ].

Definition outcomes : DataFrame :=
  Frame [Crime_ID; Outcome_type]
    [ {[ Crime_ID := Str "1"; Outcome_type := NaN ]} ].

(** The second scenario: the outcomes record supplies 'Local resolution'. *)
Definition outcomes_resolved : DataFrame :=
  Frame [Crime_ID; Outcome_type]
    [ {[ Crime_ID := Str "1"; Outcome_type := Str "Local resolution" ]} ].

(** The three transformations in sequence, without the files in between. *)
Definition transforms (df df_outcomes : DataFrame)
  : result (DataFrame * DataFrame * DataFrame) :=
  staged ← stage_transform df df_outcomes;
  processed ← processing_transform staged;
  agg ← reporting_aggregate processed;
  Ret (staged, processed, agg).

(** The cells of a table under the given labels, row by row. *)
Definition view (cs : list string) (df : DataFrame) : list (list value) :=
  (λ r, cell r <$> cs) <$> rows df.
End Scenario.

Module Sample_report.
(** A staged table with a record whose crime type is missing, and the
    processed table made of it. *)
Definition staged : DataFrame :=
  Frame [Crime_ID; Crime_type; Last_outcome_category; Outcome_type]
    [ {[ Crime_ID := Str "1"; Crime_type := Str "Burglary";
         Last_outcome_category := Str "Under investigation";
         Outcome_type := Str "Local resolution" ]};
      {[ Crime_ID := Str "2"; Crime_type := NaN;
         Last_outcome_category := Str "Status update unavailable";
         Outcome_type := NaN ]} ].

Definition processed : DataFrame :=
  Frame [Crime_ID; Crime_type; Last_outcome_category; Outcome_type;
         Final_Outcome; Broad_Outcome_Category]
    [ {[ Crime_ID := Str "1"; Crime_type := Str "Burglary";
         Last_outcome_category := Str "Under investigation";
         Outcome_type := Str "Local resolution";
         Final_Outcome := Str "Local resolution";
         Broad_Outcome_Category := Str "Non-criminal Outcome" ]};
      {[ Crime_ID := Str "2"; Crime_type := NaN;
         Last_outcome_category := Str "Status update unavailable";
         Outcome_type := NaN;
         Final_Outcome := Str "Status update unavailable";
         Broad_Outcome_Category := Str "No Further Action" ]} ].

(** A processed table in which every record has a crime type. *)
Definition processed_complete : DataFrame :=
  Frame [Crime_ID; Crime_type; Final_Outcome; Broad_Outcome_Category]
    [ {[ Crime_ID := Str "1"; Crime_type := Str "Vehicle crime";
         Final_Outcome := Str "Local resolution";
         Broad_Outcome_Category := Str "Non-criminal Outcome" ]};
      {[ Crime_ID := Str "2"; Crime_type := Str "Burglary";
         Final_Outcome := Str "Status update unavailable";
         Broad_Outcome_Category := Str "No Further Action" ]};
      {[ Crime_ID := Str "3"; Crime_type := Str "Burglary";
         Final_Outcome := Str "Unable to prosecute suspect";
         Broad_Outcome_Category := Str "No Further Action" ]} ].
End Sample_report.

(** The four labels [categorize_outcome] can return. *)
Definition broad_categories : list string :=
  [ "No Further Action"; "Non-criminal Outcome";
    "Public Interest Consideration"; "Unknown" ].

Module Sample_files.
(** A stand-in codec that knows a few file contents by name, used to run
    [main] on files holding tables with rows. *)
Definition outcomes_without_type : DataFrame :=
  Frame [Crime_ID] [ {[ Crime_ID := Str "1" ]} ].

Definition read_csv (content : string) : result DataFrame :=
  if bool_decide (content = "primary") then Ret Sample_join.primary
  else if bool_decide (content = "outcomes") then Ret Sample_join.outcomes
  else if bool_decide (content = "outcomes without outcome type") then
    Ret outcomes_without_type
  else if bool_decide (content = "staged") then Ret Sample.staged
  else if bool_decide (content = "unreadable") then
    Raise (Exn OSError "Permission denied")
  else Raise (Exn ParserError "Error tokenizing data").

Definition to_csv (df : DataFrame) : string := Sample_codec.to_csv df.

(** Both inputs in place. *)
Definition inputs : world :=
  World {[ RAW_DATA_FILE := "primary"; OUTCOMES_DATA_FILE := "outcomes" ]} [].

(** An outcomes file without its 'Outcome type' column, and a staged file
    left by an earlier run. *)
Definition stale : world :=
  World {[ RAW_DATA_FILE := "primary";
           OUTCOMES_DATA_FILE := "outcomes without outcome type";
           STAGED_DATA_FILE := "staged" ]} [].

(** A primary file that cannot be opened. *)
Definition locked : world := World {[ RAW_DATA_FILE := "unreadable" ]} [].


(** The inputs of [stale] without the staged file. *)
Definition fresh : world :=
  World {[ RAW_DATA_FILE := "primary";
           OUTCOMES_DATA_FILE := "outcomes without outcome type" ]} [].

(** A folder in which no file can be created or replaced. *)
Definition read_only (p : string) : option exn :=
  Some (Exn OSError ("[Errno 13] Permission denied: " +:+ py_repr p)).

(** The rows of a processed table in the opposite order. *)
Definition processed_reversed : DataFrame :=
  Frame (columns Sample_report.processed_complete)
        (reverse (rows Sample_report.processed_complete)).
End Sample_files.

Module Sample_roundtrip.
(** The tables of a run on the sample inputs, and a stand-in codec that
    writes each of them under a name and reads it back as it was. *)
Definition staged : DataFrame :=
  match stage_transform Sample_join.primary Sample_join.outcomes with
  | Ret df => df
  | Raise _ => Frame [] []
  end.

Definition processed : DataFrame :=
  match processing_transform staged with
  | Ret df => df
  | Raise _ => Frame [] []
  end.

Definition agg : DataFrame :=
  match reporting_aggregate processed with
  | Ret df => df
  | Raise _ => Frame [] []
  end.

Definition to_csv (df : DataFrame) : string :=
  if has_column Count df then "reporting"
  else if has_column Broad_Outcome_Category df then "processed"
  else "staged".

Definition read_csv (content : string) : result DataFrame :=
  if bool_decide (content = "primary") then Ret Sample_join.primary
  else if bool_decide (content = "outcomes") then Ret Sample_join.outcomes
  else if bool_decide (content = "staged") then Ret staged
  else if bool_decide (content = "processed") then Ret processed
  else Raise (Exn ParserError "Error tokenizing data").
End Sample_roundtrip.

(** * Properties *)

(** ** Helper lemmas on results and cells *)

Lemma mapM_Ret_inv {A B} (f : A → result B) (l : list A) (k : list B) :
  mapM f l = Ret k → Forall2 (λ x y, f x = Ret y) l k.
Proof.
  revert k. induction l as [|x l IH]; intros k; simpl.
  - intros [= <-]. constructor.
  - unfold mbind, result_bind at 1. destruct (f x) as [y|e] eqn:Hfx; [|done].
    destruct (mapM f l) as [k'|e] eqn:Hl; simpl; [|done].
    intros [= <-]. constructor; auto.
Qed.

Lemma mapM_Ret_intro {A B} (f : A → result B) (g : A → B) (l : list A) :
  Forall (λ x, f x = Ret (g x)) l → mapM f l = Ret (g <$> l).
Proof.
  induction 1 as [|x l Hx _ IH]; simpl; [done|].
  by rewrite Hx, IH.
Qed.

Lemma cell_insert_eq (r : row) c v : cell (<[c:=v]> r) c = v.
Proof. unfold cell. by rewrite lookup_insert_eq. Qed.

Lemma cell_insert_ne (r : row) c c' v : c ≠ c' → cell (<[c:=v]> r) c' = cell r c'.
Proof. intros. unfold cell. by rewrite lookup_insert_ne. Qed.

Lemma has_column_true c df : has_column c df = true ↔ c ∈ columns df.
Proof. unfold has_column. apply bool_decide_eq_true. Qed.

Lemma finaloutcome_row_Ret df r v :
  finaloutcome_row df r = Ret v → v = resolved_outcome r.
Proof.
  unfold finaloutcome_row, resolved_outcome, getitem.
  destruct (has_column Outcome_type df); simpl; [|done].
  destruct (notnull (cell r Outcome_type)); [by intros [= <-]|].
  destruct (has_column Last_outcome_category df); [by intros [= <-]|done].
Qed.

Lemma zip_with_fmap_same {A B C} (f : A → B → C) (g : A → B) (l : list A) :
  zip_with f l (g <$> l) = (λ x, f x (g x)) <$> l.
Proof. induction l; simpl; by f_equal. Qed.

Lemma finaloutcome_Ret df df' :
  finaloutcome df = Ret df' →
  rows df' = (λ r, <[Final_Outcome := resolved_outcome r]> r) <$> rows df.
Proof.
  unfold finaloutcome, apply_rows.
  destruct (mapM _ _) as [vs|e] eqn:Hvs; simpl; [|done].
  intros [= <-]. simpl.
  apply mapM_Ret_inv in Hvs.
  assert (vs = resolved_outcome <$> rows df) as ->.
  { induction Hvs as [|r v l k Hrv _ IH]; simpl; [done|].
    f_equal; [by eapply finaloutcome_row_Ret|done]. }
  apply zip_with_fmap_same.
Qed.

Lemma finaloutcome_total df :
  has_column Outcome_type df = true →
  has_column Last_outcome_category df = true →
  finaloutcome df = Ret (setitem Final_Outcome (resolved_outcome <$> rows df) df).
Proof.
  intros H1 H2. unfold finaloutcome, apply_rows.
  rewrite (mapM_Ret_intro _ resolved_outcome); [done|].
  apply Forall_forall. intros r _.
  unfold finaloutcome_row, getitem, resolved_outcome. rewrite H1, H2. simpl.
  by destruct (notnull _).
Qed.

(** ** Resolved outcome *)

(** C1. On a table holding the columns 'Outcome type' and 'Last outcome
    category', with text or nulls in their cells, [finaloutcome] returns a
    table with the same number of rows whose i-th row carries, under 'Final
    Outcome', the 'Outcome type' cell of the i-th input row when that cell is
    not null and its 'Last outcome category' cell otherwise. *)
Theorem finaloutcome_prefers_outcome_type (df : DataFrame) :
  has_column Outcome_type df = true →
  has_column Last_outcome_category df = true →
  text_or_null_column Outcome_type df = true →
  text_or_null_column Last_outcome_category df = true →
  ∃ df', finaloutcome df = Ret df' ∧
    length (rows df') = length (rows df) ∧
    ∀ (i : nat) (r : row), rows df !! i = Some r →
      ∃ r', rows df' !! i = Some r' ∧
        cell r' Final_Outcome =
          if notnull (cell r Outcome_type) then cell r Outcome_type
          else cell r Last_outcome_category.
Proof.
  intros H1 H2 _ _. eexists. split; [by apply finaloutcome_total|].
  simpl. rewrite zip_with_fmap_same. split; [by rewrite length_fmap|].
  intros i r Hi. eexists. split.
  - rewrite list_lookup_fmap, Hi. reflexivity.
  - apply cell_insert_eq.
Qed.

Lemma finaloutcome_prefers_outcome_type_witness :
  text_or_null_column Outcome_type Sample.staged = true ∧
  text_or_null_column Last_outcome_category Sample.staged = true ∧
  ∃ df', finaloutcome Sample.staged = Ret df' ∧
    length (rows df') = length (rows Sample.staged) ∧
    ∀ (i : nat) (r : row), rows Sample.staged !! i = Some r →
      ∃ r', rows df' !! i = Some r' ∧
        cell r' Final_Outcome =
          if notnull (cell r Outcome_type) then cell r Outcome_type
          else cell r Last_outcome_category.
Proof.
  split; [reflexivity|]. split; [reflexivity|].
  apply (finaloutcome_prefers_outcome_type Sample.staged); reflexivity.
Defined.

(** C8. Whenever [finaloutcome] returns, a row whose 'Outcome type' or
    'Last outcome category' cell is not null has a non-null 'Final Outcome'. *)
Theorem finaloutcome_notnull (df df' : DataFrame) (i : nat) (r r' : row) :
  finaloutcome df = Ret df' →
  rows df !! i = Some r →
  rows df' !! i = Some r' →
  notnull (cell r Outcome_type) = true ∨
    notnull (cell r Last_outcome_category) = true →
  notnull (cell r' Final_Outcome) = true.
Proof.
  intros Hdf Hr Hr' Hsrc. apply finaloutcome_Ret in Hdf.
  rewrite Hdf, list_lookup_fmap, Hr in Hr'. injection Hr' as <-.
  rewrite cell_insert_eq. unfold resolved_outcome.
  destruct (notnull (cell r Outcome_type)) eqn:Hot; [done|].
  by destruct Hsrc.
Qed.

Lemma finaloutcome_notnull_witness :
  ∃ df' r r', finaloutcome Sample.staged = Ret df' ∧
    rows Sample.staged !! 1%nat = Some r ∧
    rows df' !! 1%nat = Some r' ∧
    notnull (cell r Outcome_type) = false ∧
    notnull (cell r Last_outcome_category) = true ∧
    notnull (cell r' Final_Outcome) = true.
Proof.
  eexists _, _, _.
  split; [apply finaloutcome_total; reflexivity|].
  split; [reflexivity|]. split; [reflexivity|].
  split; [reflexivity|]. split; [reflexivity|].
  eapply (finaloutcome_notnull Sample.staged _ 1%nat).
  - apply finaloutcome_total; reflexivity.
  - reflexivity.
  - reflexivity.
  - right. reflexivity.
Defined.

(** ** Broad outcome category *)

Lemma py_in_listed v l : py_in v l = true ↔ listed v l.
Proof.
  unfold py_in, listed. rewrite existsb_exists. split.
  - intros (s & Hs & Heq). destruct v as [|t|z]; simpl in Heq; try done.
    apply bool_decide_eq_true in Heq as ->.
    exists s. split; [done|]. by apply list_elem_of_In.
  - intros (s & -> & Hs). exists s. split; [by apply list_elem_of_In|].
    simpl. by apply bool_decide_eq_true.
Qed.

Lemma py_in_not_listed v l : py_in v l = false ↔ ¬ listed v l.
Proof. rewrite <-py_in_listed. by destruct (py_in v l). Qed.

Lemma outcome_lists_apart :
  Forall (λ s, (s ∉ non_criminal_outcomes) ∧ (s ∉ public_interest_outcomes))
         no_action_outcomes ∧
  Forall (λ s, s ∉ public_interest_outcomes) non_criminal_outcomes.
Proof. compute_done. Qed.

Lemma outcome_lists_disjoint v :
  (listed v no_action_outcomes → ¬ listed v non_criminal_outcomes) ∧
  (listed v no_action_outcomes → ¬ listed v public_interest_outcomes) ∧
  (listed v non_criminal_outcomes → ¬ listed v public_interest_outcomes).
Proof.
  destruct outcome_lists_apart as [H1 H2].
  rewrite Forall_forall in H1. rewrite Forall_forall in H2.
  repeat split; intros (s & -> & Hs) (t & [= <-] & Ht).
  - destruct (H1 s Hs) as [Hn _]. by apply Hn.
  - destruct (H1 s Hs) as [_ Hn]. by apply Hn.
  - by apply (H2 s Hs).
Qed.

(** C2. [categorize_outcome] answers 'No Further Action' exactly on the
    values of the no-action list, 'Non-criminal Outcome' exactly on those of
    the non-criminal list, 'Public Interest Consideration' exactly on those of
    the public-interest list, and 'Unknown' exactly on every other value; the
    null marker is among the latter. *)
Theorem categorize_outcome_by_lists (v : value) :
  (categorize_outcome v = "No Further Action" ↔ listed v no_action_outcomes) ∧
  (categorize_outcome v = "Non-criminal Outcome" ↔ listed v non_criminal_outcomes) ∧
  (categorize_outcome v = "Public Interest Consideration"
     ↔ listed v public_interest_outcomes) ∧
  (categorize_outcome v = "Unknown"
     ↔ ¬ listed v no_action_outcomes ∧ ¬ listed v non_criminal_outcomes ∧
       ¬ listed v public_interest_outcomes) ∧
  categorize_outcome NaN = "Unknown".
Proof.
  destruct (outcome_lists_disjoint v) as (D12 & D13 & D23).
  unfold categorize_outcome.
  destruct (py_in v no_action_outcomes) eqn:H1;
    [apply py_in_listed in H1 | apply py_in_not_listed in H1];
  (destruct (py_in v non_criminal_outcomes) eqn:H2;
    [apply py_in_listed in H2 | apply py_in_not_listed in H2]);
  (destruct (py_in v public_interest_outcomes) eqn:H3;
    [apply py_in_listed in H3 | apply py_in_not_listed in H3]);
  repeat split; try done; try tauto; intros; exfalso; tauto.
Qed.

(** What [apply_categorization] writes in each row. *)
Lemma apply_categorization_Ret df df' :
  apply_categorization df = Ret df' →
  rows df' = (λ r, <[Broad_Outcome_Category :=
                       Str (categorize_outcome (cell r Final_Outcome))]> r) <$> rows df.
Proof.
  unfold apply_categorization, getcolumn.
  destruct (has_column Final_Outcome df); simpl; [|done].
  intros [= <-]. simpl. rewrite <-list_fmap_compose.
  apply (zip_with_fmap_same (λ r v, <[Broad_Outcome_Category:=v]> r)
           (λ r, Str (categorize_outcome (cell r Final_Outcome)))).
Qed.

(** ** Ingestion and the orchestrator *)

Section pipeline_facts.
Variable read_csv : string → result DataFrame.
Variable to_csv : DataFrame → string.
Variable write_error : string → option exn.

(** C5. On a path that holds no file, [ingest_data] returns [None]
    without raising; it leaves the files as they are and appends to the log
    its starting line and one ERROR line. *)
Theorem ingest_data_missing_file (file_path : string) (w : world) :
  files w !! file_path = None →
  ingest_data read_csv file_path w =
    (Ret None,
     {| files := files w;
        log := log w ++
          [ (INFO, "Starting data ingestion from " +:+ file_path);
            (ERROR, "File not found: " +:+ file_path) ] |}).
Proof.
  intros Hnone. unfold ingest_data, mbind, M_bind, logging, os_path_exists.
  simpl. rewrite Hnone. simpl.
  unfold mret, M_ret. by rewrite <-app_assoc.
Qed.

(** C6. On a file that exists and that [pd.read_csv] rejects as
    unparsable, [ingest_data] returns [None] without raising; it leaves the
    files as they are and appends to the log its starting line and one ERROR
    line that carries the text of the exception. *)
Theorem ingest_data_unparsable_file (file_path content : string) (e : exn)
    (w : world) :
  files w !! file_path = Some content →
  read_csv content = Raise e →
  is_parse_failure e = true →
  ingest_data read_csv file_path w =
    (Ret None,
     {| files := files w;
        log := log w ++
          [ (INFO, "Starting data ingestion from " +:+ file_path);
            (ERROR, "Error reading the CSV file " +:+ file_path +:+ ": "
                    +:+ exn_str e) ] |}).
Proof.
  intros Hsome Hread Hparse.
  assert (is_ValueError e = true) as Hve.
  { unfold is_parse_failure in Hparse. unfold is_ValueError.
    by destruct (exn_cls e). }
  unfold ingest_data, mbind, M_bind, logging, os_path_exists, try_except,
    pd_read_csv.
  simpl. rewrite Hsome. simpl. rewrite Hsome, Hread, Hve.
  unfold mret, M_ret. simpl. by rewrite <-app_assoc.
Qed.

(** [ingest_data] never writes a file. *)
Lemma ingest_data_files (file_path : string) (w : world) :
  files (ingest_data read_csv file_path w).2 = files w.
Proof.
  unfold ingest_data, mbind, M_bind, logging, os_path_exists, try_except,
    pd_read_csv. simpl.
  destruct (files w !! file_path) as [content|] eqn:Hf; simpl.
  - rewrite Hf. destruct (read_csv content) as [df|e]; simpl; [done|].
    by destruct (is_ValueError e).
  - done.
Qed.

End pipeline_facts.


Lemma ingest_data_missing_file_witness :
  ingest_data Sample_codec.read_csv "./nowhere.csv" (World ∅ []) =
    (Ret None,
     World ∅ [ (INFO, "Starting data ingestion from ./nowhere.csv");
               (ERROR, "File not found: ./nowhere.csv") ]).
Proof.
  apply (ingest_data_missing_file Sample_codec.read_csv "./nowhere.csv" (World ∅ [])).
  reflexivity.
Defined.

Lemma ingest_data_unparsable_file_witness :
  ingest_data Sample_codec.read_csv "./empty.csv"
      (World {[ "./empty.csv" := EmptyString ]} []) =
    (Ret None,
     World {[ "./empty.csv" := EmptyString ]}
       [ (INFO, "Starting data ingestion from ./empty.csv");
         (ERROR, "Error reading the CSV file ./empty.csv: No columns to parse from file") ]).
Proof.
  exact (ingest_data_unparsable_file Sample_codec.read_csv "./empty.csv"
           EmptyString
           (Exn EmptyDataError "No columns to parse from file")
           (World {[ "./empty.csv" := EmptyString ]} []) eq_refl eq_refl eq_refl).
Defined.


(** ** Running the pipeline twice *)

Section rerun.
Variable read_csv : string → result DataFrame.
Variable to_csv : DataFrame → string.
Variable write_error : string → option exn.

Lemma ingest_data_result (file_path : string) (w : world) :
  (ingest_data read_csv file_path w).1
  = ingest_outcome read_csv (files w !! file_path).
Proof.
  unfold ingest_data, mbind, M_bind, logging, os_path_exists, try_except,
    pd_read_csv, ingest_outcome. simpl.
  destruct (files w !! file_path) as [content|] eqn:Hf; simpl; [|done].
  rewrite Hf. destruct (read_csv content) as [df|e]; simpl; [done|].
  by destruct (is_ValueError e).
Qed.

Lemma stage_data_files df df_outcomes out w :
  (stage_data to_csv write_error df df_outcomes out w).1 = Ret () ∧
  files (stage_data to_csv write_error df df_outcomes out w).2 =
    write_result to_csv write_error out (stage_transform df df_outcomes) (files w).
Proof.
  unfold stage_data, stage_transform, mbind, M_bind, result_bind, logging,
    try_except, lift, df_to_csv, write_result. simpl.
  destruct (merge_data df df_outcomes) as [m|e]; simpl; [|done].
  destruct (del_values_street m); simpl; [|done].
  by destruct (write_error out).
Qed.

Lemma processing_data_files odf out w :
  (processing_data to_csv write_error odf out w).1 = Ret () ∧
  files (processing_data to_csv write_error odf out w).2 =
    write_result to_csv write_error out (attribute "apply" odf ≫= processing_transform) (files w).
Proof.
  unfold processing_data, processing_transform, mbind, M_bind, result_bind,
    logging, try_except, lift, df_to_csv, write_result. simpl.
  destruct (attribute "apply" odf) as [d|e]; simpl; [|done].
  destruct (finaloutcome d) as [d'|e]; simpl; [|done].
  destruct (apply_categorization d'); simpl; [|done].
  by destruct (write_error out).
Qed.

Lemma reporting_data_files odf out w :
  (reporting_data to_csv write_error odf out w).1 = Ret () ∧
  files (reporting_data to_csv write_error odf out w).2 =
    write_result to_csv write_error out (attribute "groupby" odf ≫= reporting_aggregate) (files w).
Proof.
  unfold reporting_data, mbind, M_bind, result_bind,
    logging, try_except, lift, df_to_csv, write_result. simpl.
  destruct (attribute "groupby" odf) as [d|e]; simpl; [|done].
  destruct (reporting_aggregate d); simpl; [|done].
  by destruct (write_error out).
Qed.

Lemma M_bind_split {A B} (m : M A) (k : A → M B) (w : world) :
  (m ≫= k) w =
    match (m w).1 with
    | Ret a => k a (m w).2
    | Raise e => (Raise e, (m w).2)
    end.
Proof. unfold mbind, M_bind. by destruct (m w) as [[a|e] w']. Qed.

Lemma run_stages_files df df_outcomes w :
  files (run_stages read_csv to_csv write_error df df_outcomes w).2 =
    stages_files read_csv to_csv write_error df df_outcomes (files w).
Proof.
  unfold run_stages, stages_files.
  destruct (stage_data_files df df_outcomes STAGED_DATA_FILE w) as [Hr1 Hf1].
  rewrite M_bind_split, Hr1.
  set (w1 := (stage_data to_csv write_error df df_outcomes STAGED_DATA_FILE w).2) in *.
  rewrite M_bind_split, ingest_data_result, <-Hf1.
  destruct (ingest_outcome read_csv (files w1 !! STAGED_DATA_FILE)) as [df_staged|e];
    simpl; [|apply (ingest_data_files read_csv)].
  pose proof (ingest_data_files read_csv STAGED_DATA_FILE w1) as Hf2.
  set (w2 := (ingest_data read_csv STAGED_DATA_FILE w1).2) in *.
  destruct (processing_data_files df_staged PROCESSING_DATA_FILE w2) as [Hr3 Hf3].
  rewrite M_bind_split, Hr3.
  set (w3 := (processing_data to_csv write_error df_staged PROCESSING_DATA_FILE w2).2) in *.
  rewrite Hf2 in Hf3. rewrite <-Hf3.
  rewrite M_bind_split, ingest_data_result.
  destruct (ingest_outcome read_csv (files w3 !! PROCESSING_DATA_FILE)) as [df_primary|e];
    simpl; [|apply (ingest_data_files read_csv)].
  destruct (reporting_data_files df_primary REPORTING_DATA_FILE
              (ingest_data read_csv PROCESSING_DATA_FILE w3).2) as [_ Hf5].
  by rewrite Hf5, (ingest_data_files read_csv).
Qed.

Lemma try_except_log_files {A} (body : M A) (catches : exn → bool)
    (handler : exn → M A) (w : world) :
  (∀ e w', files (handler e w').2 = files w') →
  files (try_except body catches handler w).2 = files (body w).2.
Proof.
  intros Hh. unfold try_except.
  destruct (body w) as [[a|e] w']; simpl; [done|].
  destruct (catches e); [apply Hh|done].
Qed.

Lemma main_unfold :
  main read_csv to_csv write_error =
    (logging INFO "Pipeline execution started";;
     try_except
       (df ← ingest_data read_csv RAW_DATA_FILE;
        df_outcomes ← ingest_data read_csv OUTCOMES_DATA_FILE;
        match df, df_outcomes with
        | Some df, Some df_outcomes => run_stages read_csv to_csv write_error df df_outcomes
        | _, _ => mret ()
        end;;
        logging INFO "Pipeline execution completed successfully")
       is_Exception
       (λ e, logging CRITICAL ("Pipeline execution failed: " +:+ exn_str e))).
Proof. reflexivity. Qed.

Lemma main_files_spec w :
  files (main read_csv to_csv write_error w).2 = main_files read_csv to_csv write_error (files w).
Proof.
  rewrite main_unfold. unfold main_files.
  rewrite M_bind_split. simpl.
  set (w0 := {| files := files w;
                log := log w ++ [(INFO, "Pipeline execution started")] |}).
  rewrite try_except_log_files by done.
  rewrite M_bind_split, ingest_data_result.
  pose proof (ingest_data_files read_csv RAW_DATA_FILE w0) as Hf1.
  set (w1 := (ingest_data read_csv RAW_DATA_FILE w0).2) in *.
  change (files w0) with (files w) in *.
  destruct (ingest_outcome read_csv (files w !! RAW_DATA_FILE)) as [df|e];
    simpl; [|done].
  rewrite M_bind_split, ingest_data_result, Hf1.
  pose proof (ingest_data_files read_csv OUTCOMES_DATA_FILE w1) as Hf2.
  set (w2 := (ingest_data read_csv OUTCOMES_DATA_FILE w1).2) in *.
  destruct (ingest_outcome read_csv (files w !! OUTCOMES_DATA_FILE))
    as [dfo|e]; simpl; [|by rewrite Hf2, Hf1; destruct df].
  rewrite M_bind_split.
  destruct df as [df|], dfo as [dfo|]; simpl; try (by rewrite Hf2).
  pose proof (run_stages_files df dfo w2) as Hf3.
  destruct (run_stages read_csv to_csv write_error df dfo w2) as [[[]|e] w3]; simpl in *;
    by rewrite Hf3, Hf2, Hf1.
Qed.

Lemma write_result_lookup_ne out r fs p :
  p ≠ out → write_result to_csv write_error out r fs !! p = fs !! p.
Proof.
  intros. unfold write_result.
  destruct r; [|done]. destruct (write_error out); [done|].
  by rewrite lookup_insert_ne.
Qed.

(** Writing a stage's result over files that already hold it changes
    nothing. *)
Lemma write_result_absorb out r fs fs' :
  fs' !! out = write_result to_csv write_error out r fs !! out →
  write_result to_csv write_error out r fs' = fs'.
Proof.
  unfold write_result.
  destruct r as [df|e]; [|done]. destruct (write_error out); [done|].
  rewrite lookup_insert_eq. apply insert_id.
Qed.

Lemma output_paths_distinct :
  STAGED_DATA_FILE ≠ PROCESSING_DATA_FILE ∧
  STAGED_DATA_FILE ≠ REPORTING_DATA_FILE ∧
  PROCESSING_DATA_FILE ≠ REPORTING_DATA_FILE.
Proof. compute_done. Qed.

Lemma input_paths_not_outputs :
  Forall (λ p, p ≠ STAGED_DATA_FILE ∧ p ≠ PROCESSING_DATA_FILE ∧
               p ≠ REPORTING_DATA_FILE)
         [RAW_DATA_FILE; OUTCOMES_DATA_FILE].
Proof. compute_done. Qed.

Lemma stages_files_lookup_ne df df_outcomes fs p :
  p ≠ STAGED_DATA_FILE → p ≠ PROCESSING_DATA_FILE → p ≠ REPORTING_DATA_FILE →
  stages_files read_csv to_csv write_error df df_outcomes fs !! p = fs !! p.
Proof.
  intros H1 H2 H3. unfold stages_files.
  repeat (case_match; rewrite ?write_result_lookup_ne by done); done.
Qed.

Lemma stages_files_idem df df_outcomes fs :
  stages_files read_csv to_csv write_error df df_outcomes
    (stages_files read_csv to_csv write_error df df_outcomes fs) =
    stages_files read_csv to_csv write_error df df_outcomes fs.
Proof.
  destruct output_paths_distinct as (Hsp & Hsr & Hpr).
  unfold stages_files. cbv zeta.
  set (r1 := stage_transform df df_outcomes).
  set (fs1 := write_result to_csv write_error STAGED_DATA_FILE r1 fs).
  destruct (ingest_outcome read_csv (fs1 !! STAGED_DATA_FILE)) as [ds|e] eqn:H1.
  - set (r2 := attribute "apply" ds ≫= processing_transform).
    set (fs2 := write_result to_csv write_error PROCESSING_DATA_FILE r2 fs1).
    destruct (ingest_outcome read_csv (fs2 !! PROCESSING_DATA_FILE)) as [dp|e] eqn:H2.
    + set (r3 := attribute "groupby" dp ≫= reporting_aggregate).
      set (fs3 := write_result to_csv write_error REPORTING_DATA_FILE r3 fs2).
      assert (fs3 !! STAGED_DATA_FILE = fs1 !! STAGED_DATA_FILE) as Hs.
      { unfold fs3, fs2. by rewrite !write_result_lookup_ne. }
      assert (fs3 !! PROCESSING_DATA_FILE = fs2 !! PROCESSING_DATA_FILE) as Hp.
      { unfold fs3. by rewrite write_result_lookup_ne. }
      rewrite (write_result_absorb _ r1 fs fs3) by done.
      rewrite Hs, H1.
      rewrite (write_result_absorb _ r2 fs1 fs3) by done.
      rewrite Hp, H2.
      by apply (write_result_absorb _ r3 fs2).
    + assert (fs2 !! STAGED_DATA_FILE = fs1 !! STAGED_DATA_FILE) as Hs.
      { unfold fs2. by rewrite write_result_lookup_ne. }
      rewrite (write_result_absorb _ r1 fs fs2) by done.
      rewrite Hs, H1.
      rewrite (write_result_absorb _ r2 fs1 fs2) by done.
      by rewrite H2.
  - rewrite (write_result_absorb _ r1 fs fs1) by done.
    by rewrite H1.
Qed.

Lemma main_files_idem fs :
  main_files read_csv to_csv write_error (main_files read_csv to_csv write_error fs)
  = main_files read_csv to_csv write_error fs.
Proof.
  pose proof input_paths_not_outputs as Hin.
  rewrite !Forall_cons in Hin.
  destruct Hin as ((Hr1 & Hr2 & Hr3) & (Ho1 & Ho2 & Ho3) & _).
  unfold main_files at 2 3.
  destruct (ingest_outcome read_csv (fs !! RAW_DATA_FILE)) as [[df|]|e] eqn:H1;
    try (by unfold main_files; rewrite H1).
  destruct (ingest_outcome read_csv (fs !! OUTCOMES_DATA_FILE)) as [[dfo|]|e] eqn:H2;
    try (by unfold main_files; rewrite H1, H2).
  unfold main_files.
  rewrite !stages_files_lookup_ne by done.
  rewrite H1, H2. apply stages_files_idem.
Qed.

(** C9, amended.  The files a run of [main] leaves are a function of all
    the files it found, output files of earlier runs included, and a second
    run leaves every file as the first run left it: the staged, processed and
    reporting files are the same, byte for byte.  A path that cannot be
    written is taken to stay so from one run to the next. *)
Theorem main_rerun_same_files (w : world) :
  let w1 := (main read_csv to_csv write_error w).2 in
  let w2 := (main read_csv to_csv write_error w1).2 in
  files w1 = main_files read_csv to_csv write_error (files w) ∧
  files w2 = files w1 ∧
  files w2 !! STAGED_DATA_FILE = files w1 !! STAGED_DATA_FILE ∧
  files w2 !! PROCESSING_DATA_FILE = files w1 !! PROCESSING_DATA_FILE ∧
  files w2 !! REPORTING_DATA_FILE = files w1 !! REPORTING_DATA_FILE.
Proof.
  intros w1 w2.
  assert (files w2 = files w1) as Heq.
  { unfold w2, w1. rewrite !main_files_spec. apply main_files_idem. }
  split; [apply main_files_spec|]. by rewrite Heq.
Qed.
End rerun.

(** C9, as first stated, fails in its second half: the outputs are not a
    function of the two input files.  With an outcomes file that lacks the
    'Outcome type' column staging fails, and the run goes on with whatever
    staged file it finds: the same two input files give a processed file when
    an earlier run left a staged file, and none when it did not. *)
Lemma main_outputs_depend_on_earlier_staged_file :
  let run w := main Sample_files.read_csv Sample_files.to_csv
                 Sample_codec.write_error w in
  files Sample_files.stale !! RAW_DATA_FILE
    = files Sample_files.fresh !! RAW_DATA_FILE ∧
  files Sample_files.stale !! OUTCOMES_DATA_FILE
    = files Sample_files.fresh !! OUTCOMES_DATA_FILE ∧
  is_Some (files (run Sample_files.stale).2 !! PROCESSING_DATA_FILE) ∧
  files (run Sample_files.fresh).2 !! PROCESSING_DATA_FILE = None.
Proof.
  intros run.
  split; [by vm_compute|]. split; [by vm_compute|].
  split; [by vm_compute; eexists|]. by vm_compute.
Qed.

(** ** Staging *)

Lemma cell_project cs r c :
  cell (project cs r) c = if decide (c ∈ cs) then cell r c else NaN.
Proof.
  unfold project. induction cs as [|c' cs IH]; cbn [foldr].
  - rewrite decide_False; [done|apply not_elem_of_nil].
  - destruct (decide (c' = c)) as [->|Hne].
    + rewrite cell_insert_eq, decide_True; [done|apply list_elem_of_here].
    + rewrite cell_insert_ne, IH by done.
      destruct (decide (c ∈ cs)) as [Hin|Hnin].
      * rewrite decide_True; [done|by apply list_elem_of_further].
      * rewrite decide_False; [done|]. rewrite elem_of_cons. by intros [?|?].
Qed.

Lemma cell_delete_all cs (r : row) c :
  cell (foldr delete r cs) c = if decide (c ∈ cs) then NaN else cell r c.
Proof.
  induction cs as [|c' cs IH]; cbn [foldr].
  - rewrite decide_False; [done|apply not_elem_of_nil].
  - destruct (decide (c' = c)) as [->|Hne].
    + unfold cell at 1. rewrite lookup_delete_eq. simpl.
      rewrite decide_True; [done|apply list_elem_of_here].
    + unfold cell at 1. rewrite lookup_delete_ne by done.
      fold (cell (foldr delete r cs) c). rewrite IH.
      destruct (decide (c ∈ cs)) as [Hin|Hnin].
      * rewrite decide_True; [done|by apply list_elem_of_further].
      * rewrite decide_False; [done|]. rewrite elem_of_cons. by intros [?|?].
Qed.

Lemma cell_project_in cs r c : c ∈ cs → cell (project cs r) c = cell r c.
Proof. intros. by rewrite cell_project, decide_True. Qed.

Lemma filter_nil_Forall {A} (P : A → Prop) `{∀ x, Decision (P x)} (l : list A) :
  Forall (λ x, ¬ P x) l → filter P l = [].
Proof.
  induction 1 as [|x l Hx _ IH]; [done|]. by rewrite filter_cons_False.
Qed.

Lemma getcolumns_Ret cs df :
  Forall (λ c, has_column c df = true) cs →
  getcolumns cs df = Ret {| columns := cs; rows := project cs <$> rows df |}.
Proof.
  intros Hcs. unfold getcolumns. rewrite filter_nil_Forall; [done|].
  eapply Forall_impl; [exact Hcs|]. intros c Hc%has_column_true. tauto.
Qed.

Lemma drop_columns_Ret cs df :
  Forall (λ c, has_column c df = true) cs →
  drop_columns cs df =
    Ret {| columns := filter (λ c, c ∉ cs) (columns df);
           rows := (λ r, foldr delete r cs) <$> rows df |}.
Proof.
  intros Hcs. unfold drop_columns. rewrite filter_nil_Forall; [done|].
  eapply Forall_impl; [exact Hcs|]. intros c Hc%has_column_true. tauto.
Qed.

Lemma payload_selected rs :
  payload (Frame [Crime_ID; Outcome_type] rs) Crime_ID = [Outcome_type].
Proof. reflexivity. Qed.

Lemma overlap_selected df rs :
  has_column Outcome_type df = false →
  overlap df (Frame [Crime_ID; Outcome_type] rs) Crime_ID = [].
Proof.
  intros Hot. unfold overlap. rewrite payload_selected.
  rewrite filter_cons_False; [done|].
  intros Hin%has_column_true. congruence.
Qed.

Lemma matches_selected df_outcomes l :
  matches (Frame [Crime_ID; Outcome_type]
             (project [Crime_ID; Outcome_type] <$> rows df_outcomes)) Crime_ID l
  = project [Crime_ID; Outcome_type] <$> matching df_outcomes l.
Proof.
  unfold matches, matching. simpl.
  induction (rows df_outcomes) as [|o os IH]; [done|].
  rewrite fmap_cons, !filter_cons, IH.
  rewrite cell_project_in by apply list_elem_of_here.
  by destruct (decide _).
Qed.

Lemma merge_data_Ret df df_outcomes :
  has_column Crime_ID df = true →
  has_column Outcome_type df = false →
  outcomes_schema df_outcomes = true →
  merge_data df df_outcomes =
    Ret {| columns := columns df ++ [Outcome_type];
           rows := rows df ≫= joined df df_outcomes |}.
Proof.
  intros Hid Hot [Hoid Hoot]%andb_true_iff.
  unfold merge_data. rewrite getcolumns_Ret by (repeat constructor; done).
  simpl. unfold pd_merge_left. rewrite Hid. simpl.
  set (sel := Frame [Crime_ID; Outcome_type] _).
  assert (∀ c, left_label df sel Crime_ID c = c) as Hll.
  { intros c. unfold left_label, sel. rewrite overlap_selected by done.
    rewrite bool_decide_eq_false_2; [done|apply not_elem_of_nil]. }
  assert (right_label df sel Crime_ID Outcome_type = Outcome_type) as Hrl.
  { unfold right_label, sel. rewrite overlap_selected by done.
    rewrite bool_decide_eq_false_2; [done|apply not_elem_of_nil]. }
  rewrite Hrl. f_equal. f_equal.
  - f_equal. rewrite <-(list_fmap_id (columns df)) at 2.
    apply list_fmap_ext. intros ? c _. apply Hll.
  - apply list_bind_ext; [|done]. intros l.
    unfold join_row, joined. unfold sel at 1. rewrite matches_selected.
    assert (left_cells df sel Crime_ID l = project (columns df) l) as ->.
    { unfold left_cells, project. apply foldr_ext; [|done..].
      intros c m. by rewrite Hll. }
    assert (payload sel Crime_ID = [Outcome_type]) as Hpay by reflexivity.
    unfold right_cells. rewrite !Hpay. cbn [foldr from_option]. rewrite Hrl.
    destruct (matching df_outcomes l) as [|o os]; [done|].
    rewrite !fmap_cons.
    rewrite cell_project_in by (rewrite !elem_of_cons; auto).
    apply (f_equal (cons _)).
    rewrite <-list_fmap_compose. apply list_fmap_ext. intros ? o' _. unfold compose.
    by rewrite cell_project_in by (rewrite !elem_of_cons; auto).
Qed.

Lemma stage_transform_Ret df df_outcomes :
  primary_schema df = true →
  outcomes_schema df_outcomes = true →
  stage_transform df df_outcomes =
    Ret {| columns := filter (λ c, c ∉ cols_to_delete) (columns df ++ [Outcome_type]);
           rows := trim <$> (rows df ≫= joined df df_outcomes) |}.
Proof.
  intros [[Hid Hdel]%andb_true_iff Hot%negb_true_iff]%andb_true_iff Hout.
  unfold stage_transform. rewrite merge_data_Ret by done. simpl.
  unfold del_values_street. rewrite drop_columns_Ret; [done|].
  rewrite forallb_forall in Hdel.
  apply Forall_forall. intros c Hc%list_elem_of_In.
  apply Hdel, has_column_true in Hc.
  apply has_column_true. simpl. apply elem_of_app. by left.
Qed.

Lemma fmap_bind_join {A B C} (f : B → C) (g : A → list B) (l : list A) :
  f <$> (l ≫= g) = mjoin ((λ x, f <$> g x) <$> l).
Proof.
  induction l as [|x l IH]; [done|].
  rewrite bind_cons, fmap_app, IH. done.
Qed.

Lemma length_joined df df_outcomes l :
  length (joined df df_outcomes l) = Nat.max 1 (length (matching df_outcomes l)).
Proof.
  unfold joined. destruct (matching df_outcomes l) as [|o os]; [done|].
  rewrite length_fmap. simpl. lia.
Qed.

Lemma length_join_ge {A} (ls : list (list A)) :
  Forall (λ b, 1 ≤ length b) ls → length ls ≤ length (mjoin ls).
Proof.
  induction 1 as [|b ls Hb _ IH]; simpl; [done|].
  rewrite length_app. lia.
Qed.

Lemma length_join_singletons {A} (ls : list (list A)) :
  Forall (λ b, length b = 1) ls → length (mjoin ls) = length ls.
Proof.
  induction 1 as [|b ls Hb _ IH]; simpl; [done|].
  rewrite length_app. lia.
Qed.

(** C3, as first stated, fails: a primary table of one record and an
    outcomes table listing two outcomes for it give a staged table of two
    rows. *)
Lemma stage_transform_repeats_row_per_outcome :
  ∃ staged,
    stage_transform Sample_join.primary Sample_join.outcomes_twice = Ret staged ∧
    length (rows Sample_join.primary) = 1 ∧
    length (rows staged) = 2 ∧
    (λ s, (cell s Crime_ID, cell s Outcome_type)) <$> rows staged =
      [ (Str "1", Str "Suspect charged");
        (Str "1", Str "Offender given a caution") ].
Proof. eexists. split; [reflexivity|]. by vm_compute. Qed.

Lemma trim_joined_cell (cs : list string) (l : row) (v : value) (c : string) :
  cell (trim (<[Outcome_type := v]> (project cs l))) c =
    if decide (c ∈ cols_to_delete) then NaN
    else if decide (c = Outcome_type) then v
    else if decide (c ∈ cs) then cell l c else NaN.
Proof.
  unfold trim. rewrite cell_delete_all.
  destruct (decide (c ∈ cols_to_delete)); [done|].
  destruct (decide (c = Outcome_type)) as [->|Hne]; [apply cell_insert_eq|].
  rewrite cell_insert_ne by done. apply cell_project.
Qed.

(** The rows a primary row contributes to the staged table, cell by cell. *)
Lemma trim_joined_cells df df_outcomes l :
  Forall2 (λ s v, ∀ c, cell s c =
      if decide (c ∈ cols_to_delete) then NaN
      else if decide (c = Outcome_type) then v
      else if decide (c ∈ columns df) then cell l c else NaN)
    (trim <$> joined df df_outcomes l) (outcome_cells df_outcomes l).
Proof.
  unfold joined, outcome_cells.
  destruct (matching df_outcomes l) as [|o os].
  - repeat constructor. intros c. apply trim_joined_cell.
  - rewrite <-list_fmap_compose. apply Forall2_fmap, Forall_Forall2_diag.
    apply Forall_forall. intros o' _ c. apply trim_joined_cell.
Qed.

(** C3, amended.  On a primary table (it has 'Crime ID' and the three
    columns to drop, and no 'Outcome type' of its own) and an outcomes table
    (it has 'Crime ID' and 'Outcome type'), both with text among their crime
    identifiers and the second with text or nulls as outcome types, the
    staging transform returns a table with an 'Outcome type' column whose
    rows are, in the order of the primary rows, one block per primary row.
    The block of a primary row has one row for each outcomes record carrying
    its crime identifier, in the order of the outcomes table, and a single row
    when there is none.  The k-th row of the block carries the 'Outcome type'
    of the k-th such record (null when there is none), the primary row's cells
    in the primary columns that are not dropped, and nothing else.  Hence the
    staged table never has fewer rows than the primary table, and it has
    exactly as many when no primary row matches more than one outcome
    record. *)
Theorem stage_transform_left_join (df df_outcomes : DataFrame) :
  primary_schema df = true →
  outcomes_schema df_outcomes = true →
  text_column Crime_ID df = true →
  text_column Crime_ID df_outcomes = true →
  text_or_null_column Outcome_type df_outcomes = true →
  ∃ staged blocks,
    stage_transform df df_outcomes = Ret staged ∧
    has_column Outcome_type staged = true ∧
    rows staged = mjoin blocks ∧
    Forall2 (λ l b,
        length b = Nat.max 1 (length (matching df_outcomes l)) ∧
        Forall2 (λ s v, ∀ c, cell s c =
            if decide (c ∈ cols_to_delete) then NaN
            else if decide (c = Outcome_type) then v
            else if decide (c ∈ columns df) then cell l c else NaN)
          b (outcome_cells df_outcomes l))
      (rows df) blocks ∧
    length (rows df) ≤ length (rows staged) ∧
    (Forall (λ l, length (matching df_outcomes l) ≤ 1) (rows df) →
     length (rows staged) = length (rows df)).
Proof.
  intros Hprim Hout _ _ _.
  pose proof Hprim as [[Hid Hdel]%andb_true_iff Hot%negb_true_iff]%andb_true_iff.
  set (blocks := (λ l, trim <$> joined df df_outcomes l) <$> rows df).
  assert (Forall2 (λ l b, b = trim <$> joined df df_outcomes l) (rows df) blocks)
    as Hblocks.
  { unfold blocks. induction (rows df); constructor; auto. }
  eexists _, blocks. split; [by apply stage_transform_Ret|]. simpl.
  split; [|split; [apply fmap_bind_join|]].
  { apply has_column_true. simpl. apply list_elem_of_filter. split.
    - compute_done.
    - apply elem_of_app. right. apply list_elem_of_here. }
  rewrite fmap_bind_join. fold blocks.
  split; [|split].
  - eapply Forall2_impl; [exact Hblocks|]. intros l b ->. split.
    + by rewrite length_fmap, length_joined.
    + apply trim_joined_cells.
  - rewrite (Forall2_length _ _ _ Hblocks). apply length_join_ge.
    unfold blocks. apply Forall_fmap, Forall_forall. intros l _. simpl.
    rewrite length_fmap, length_joined. lia.
  - intros Hone. rewrite (Forall2_length _ _ _ Hblocks).
    apply length_join_singletons.
    unfold blocks. apply Forall_fmap. eapply Forall_impl; [exact Hone|].
    intros l Hl. unfold compose. cbv beta in *.
    rewrite length_fmap, length_joined. lia.
Qed.

Lemma stage_transform_left_join_witness :
  primary_schema Sample_join.primary = true ∧
  outcomes_schema Sample_join.outcomes = true ∧
  text_column Crime_ID Sample_join.primary = true ∧
  text_column Crime_ID Sample_join.outcomes = true ∧
  text_or_null_column Outcome_type Sample_join.outcomes = true ∧
  Forall (λ l, length (matching Sample_join.outcomes l) ≤ 1)
         (rows Sample_join.primary) ∧
  ∃ staged,
    stage_transform Sample_join.primary Sample_join.outcomes = Ret staged ∧
    has_column Outcome_type staged = true ∧
    length (rows staged) = length (rows Sample_join.primary).
Proof.
  split; [reflexivity|]. split; [reflexivity|]. split; [reflexivity|].
  split; [reflexivity|]. split; [reflexivity|].
  assert (Forall (λ l, length (matching Sample_join.outcomes l) ≤ 1)
                 (rows Sample_join.primary)) as Hone.
  { repeat constructor. }
  split; [exact Hone|].
  destruct (stage_transform_left_join Sample_join.primary Sample_join.outcomes
              eq_refl eq_refl eq_refl eq_refl eq_refl)
    as (staged & blocks & Hret & Hcol & _ & _ & _ & Hlen).
  exists staged. split; [exact Hret|]. split; [exact Hcol|]. exact (Hlen Hone).
Defined.

(** ** Reporting *)

Lemma value_leb_refl a : value_leb a a = true.
Proof.
  destruct a as [|s|z]; simpl; [done| |by apply bool_decide_eq_true].
  apply Is_true_true. by apply (reflexivity (R := String.le)).
Qed.

Lemma value_leb_total a b : value_leb a b = true ∨ value_leb b a = true.
Proof.
  destruct a as [|s|x], b as [|t|y]; simpl; auto.
  - destruct (total String.le s t) as [H|H]; apply Is_true_true in H; auto.
  - rewrite !bool_decide_eq_true. lia.
Qed.

Lemma value_leb_trans a b c :
  value_leb a b = true → value_leb b c = true → value_leb a c = true.
Proof.
  destruct a as [|s|x], b as [|t|y], c as [|u|z]; simpl; try done.
  - intros H1%Is_true_true H2%Is_true_true. apply Is_true_true.
    by apply (transitivity (R := String.le) H1).
  - rewrite !bool_decide_eq_true. lia.
Qed.

Lemma value_leb_antisym a b :
  value_leb a b = true → value_leb b a = true → a = b.
Proof.
  destruct a as [|s|x], b as [|t|y]; simpl; try done.
  - intros H1%Is_true_true H2%Is_true_true. f_equal.
    by apply (anti_symm String.le).
  - rewrite !bool_decide_eq_true. intros. f_equal. lia.
Qed.

Lemma key_leb_fst_eq (j k : key) :
  j.1 = k.1 → key_leb j k = value_leb j.2 k.2.
Proof. intros H. unfold key_leb. by destruct (decide (j.1 = k.1)). Qed.

Lemma key_leb_fst_ne (j k : key) :
  j.1 ≠ k.1 → key_leb j k = value_leb j.1 k.1.
Proof. intros H. unfold key_leb. by destruct (decide (j.1 = k.1)). Qed.

Global Instance key_le_total : Total key_le.
Proof.
  intros j k. unfold key_le.
  destruct (decide (j.1 = k.1)) as [Heq|Hne].
  - rewrite (key_leb_fst_eq j k), (key_leb_fst_eq k j) by done.
    destruct (value_leb_total j.2 k.2) as [->| ->]; simpl; auto.
  - rewrite (key_leb_fst_ne j k), (key_leb_fst_ne k j) by done.
    destruct (value_leb_total j.1 k.1) as [->| ->]; simpl; auto.
Qed.

Global Instance key_le_trans : Transitive key_le.
Proof.
  intros i j k. unfold key_le.
  intros Hij%Is_true_true Hjk%Is_true_true. apply Is_true_true.
  destruct (decide (i.1 = j.1)) as [Hij1|Hij1],
           (decide (j.1 = k.1)) as [Hjk1|Hjk1].
  - rewrite key_leb_fst_eq in Hij, Hjk |- * by congruence.
    by eapply value_leb_trans.
  - rewrite key_leb_fst_eq in Hij by done.
    rewrite key_leb_fst_ne in Hjk |- * by congruence. congruence.
  - rewrite key_leb_fst_eq in Hjk by done.
    rewrite key_leb_fst_ne in Hij |- * by congruence. congruence.
  - rewrite key_leb_fst_ne in Hij, Hjk by done.
    destruct (decide (i.1 = k.1)) as [Hik1|Hik1].
    + destruct Hij1. apply value_leb_antisym; [done|]. by rewrite Hik1.
    + rewrite key_leb_fst_ne by done. by eapply value_leb_trans.
Qed.

Global Instance key_le_antisym : AntiSymm (=) key_le.
Proof.
  intros [j1 j2] [k1 k2]. unfold key_le.
  intros Hjk%Is_true_true Hkj%Is_true_true.
  destruct (decide (j1 = k1)) as [->|Hne].
  - rewrite key_leb_fst_eq in Hjk, Hkj by done. f_equal.
    by apply value_leb_antisym.
  - rewrite key_leb_fst_ne in Hjk, Hkj by (simpl; congruence).
    destruct Hne. by apply value_leb_antisym.
Qed.

(** A list that is sorted and free of duplicates is strictly ascending. *)
Lemma StronglySorted_strict (l : list key) :
  StronglySorted key_le l → NoDup l → StronglySorted key_lt l.
Proof.
  induction 1 as [|k l Hl IH Hk]; intros Hnd; [constructor|].
  apply NoDup_cons in Hnd as [Hnotin Hnd].
  constructor; [auto|].
  rewrite Forall_forall in Hk. apply Forall_forall. intros j Hj.
  split; [auto|]. by intros ->.
Qed.

Lemma group_index_NoDup by1 by2 df : NoDup (group_index by1 by2 df).
Proof.
  unfold group_index. rewrite merge_sort_Permutation. apply NoDup_remove_dups.
Qed.

Lemma elem_of_group_index by1 by2 df k :
  k ∈ group_index by1 by2 df ↔
  key_notnull k = true ∧ k ∈ group_key by1 by2 <$> rows df.
Proof.
  unfold group_index, grouped_keys.
  by rewrite merge_sort_Permutation, elem_of_remove_dups, list_elem_of_filter.
Qed.

Lemma group_index_sorted by1 by2 df :
  StronglySorted key_lt (group_index by1 by2 df).
Proof.
  apply StronglySorted_strict; [|apply group_index_NoDup].
  apply StronglySorted_merge_sort; apply _.
Qed.

Lemma group_row_cells k n :
  group_key Crime_type Broad_Outcome_Category
    (group_row Crime_type Broad_Outcome_Category Count k n) = k ∧
  cell (group_row Crime_type Broad_Outcome_Category Count k n) Count
    = Int (Z.of_nat n).
Proof. by destruct k. Qed.

Lemma sum_list_with_zero {A} (l : list A) : sum_list_with (λ _, 0) l = 0.
Proof. induction l; simpl; auto. Qed.

Lemma sum_list_with_add {A} (f g : A → nat) (l : list A) :
  sum_list_with (λ x, f x + g x) l = sum_list_with f l + sum_list_with g l.
Proof. induction l as [|x l IH]; simpl; [done|]. rewrite IH. lia. Qed.

Lemma sum_list_with_pointwise {A} (f g : A → nat) (l : list A) :
  Forall (λ x, f x = g x) l → sum_list_with f l = sum_list_with g l.
Proof. induction 1 as [|x l Hx _ IH]; simpl; [done|]. by rewrite Hx, IH. Qed.

Lemma sum_indicator (x : key) (ks : list key) :
  NoDup ks → x ∈ ks →
  sum_list_with (λ k, if decide (x = k) then 1 else 0) ks = 1.
Proof.
  induction 1 as [|k ks Hk Hnd IH]; intros Hx; [by apply elem_of_nil in Hx|].
  simpl. apply elem_of_cons in Hx as [->|Hx].
  - destruct (decide (k = k)); [|done].
    rewrite (sum_list_with_pointwise _ (λ _, 0)), sum_list_with_zero; [done|].
    apply Forall_forall. intros j Hj. destruct (decide (k = j)) as [->|]; done.
  - destruct (decide (x = k)) as [->|]; [done|]. by rewrite IH.
Qed.

(** The sizes of the groups add up to the number of grouped keys. *)
Lemma sum_group_sizes (l ks : list key) :
  NoDup ks → (∀ x, x ∈ l → x ∈ ks) →
  sum_list_with (λ k, length (filter (λ j, j = k) l)) ks = length l.
Proof.
  intros Hnd. induction l as [|x l IH]; intros Hin.
  - apply sum_list_with_zero.
  - rewrite (sum_list_with_pointwise _
      (λ k, (if decide (x = k) then 1 else 0) + length (filter (λ j, j = k) l))).
    + rewrite sum_list_with_add, sum_indicator, IH; [done| |done|].
      * intros y Hy. apply Hin. by apply list_elem_of_further.
      * apply Hin, list_elem_of_here.
    + apply Forall_forall. intros k _. rewrite filter_cons.
      by destruct (decide (x = k)).
Qed.

Lemma length_filter_fmap {A B} (f : A → B) (P : B → Prop)
    `{∀ y, Decision (P y)} (l : list A) :
  length (filter P (f <$> l)) = length (filter (λ x, P (f x)) l).
Proof.
  induction l as [|x l IH]; [done|].
  rewrite fmap_cons, !filter_cons. destruct (decide (P (f x))); simpl; auto.
Qed.

Lemma group_size_rows by1 by2 df k :
  key_notnull k = true →
  group_size by1 by2 df k
  = length (filter (λ r, group_key by1 by2 r = k) (rows df)).
Proof.
  intros Hk. unfold group_size, grouped_keys.
  rewrite list_filter_filter, length_filter_fmap.
  f_equal. apply list_filter_iff. intros r. split; [tauto|].
  intros ->. done.
Qed.

Lemma reporting_aggregate_Ret df :
  has_column Crime_type df = true →
  has_column Broad_Outcome_Category df = true →
  reporting_aggregate df =
    Ret {| columns := [Crime_type; Broad_Outcome_Category; Count];
           rows := (λ k, group_row Crime_type Broad_Outcome_Category Count k
                           (group_size Crime_type Broad_Outcome_Category df k))
                   <$> group_index Crime_type Broad_Outcome_Category df |}.
Proof.
  intros H1 H2. unfold reporting_aggregate, groupby_size. by rewrite H1, H2.
Qed.

Lemma keys_of_group_rows (size : key → nat) (ks : list key) :
  report_key <$>
    ((λ k, group_row Crime_type Broad_Outcome_Category Count k (size k)) <$> ks)
  = ks.
Proof.
  rewrite <-list_fmap_compose. rewrite <-(list_fmap_id ks) at 2.
  apply list_fmap_ext. intros _ k _. apply group_row_cells.
Qed.

Lemma sum_list_with_fmap {A B} (f : A → B) (g : B → nat) (l : list A) :
  sum_list_with g (f <$> l) = sum_list_with (λ x, g (f x)) l.
Proof. induction l as [|x l IH]; simpl; [done|]. f_equal. apply IH. Qed.

(** C4, as first stated, fails: the processed table of two records below,
    one of them without a crime type, is aggregated into a single row of count
    1; the pair (null, 'No Further Action') is present in the processed table
    and has no row in the aggregate. *)
Lemma reporting_aggregate_drops_null_crime_type :
  processing_transform Sample_report.staged = Ret Sample_report.processed ∧
  ∃ agg,
    reporting_aggregate Sample_report.processed = Ret agg ∧
    length (rows Sample_report.processed) = 2 ∧
    total_count agg = 1 ∧
    keys_of agg = [ (Str "Burglary", Str "Non-criminal Outcome") ] ∧
    keys_of Sample_report.processed =
      [ (Str "Burglary", Str "Non-criminal Outcome");
        (NaN, Str "No Further Action") ].
Proof.
  split; [by vm_compute|]. eexists. split; [reflexivity|]. by vm_compute.
Qed.

(** C4, amended.  On a table holding the columns 'Crime type' and 'Broad
    Outcome Category', the aggregation returns a table in which no key pair
    occurs twice; a pair has a row exactly when both its values are non-null
    and some row of the processed table carries it; the 'Count' of a row is
    the number of processed rows with that pair; and the counts add up to the
    number of processed rows whose two key cells are non-null, which is the
    row count of the processed table when no key cell is null. *)
Theorem reporting_aggregate_counts (df : DataFrame) :
  has_column Crime_type df = true →
  has_column Broad_Outcome_Category df = true →
  ∃ agg,
    reporting_aggregate df = Ret agg ∧
    NoDup (keys_of agg) ∧
    (∀ k, k ∈ keys_of agg ↔ key_notnull k = true ∧ k ∈ keys_of df) ∧
    Forall (λ r, count_of r =
                 length (filter (λ r', report_key r' = report_key r) (rows df)))
           (rows agg) ∧
    total_count agg =
      length (filter (λ r, key_notnull (report_key r) = true) (rows df)) ∧
    (Forall (λ r, key_notnull (report_key r) = true) (rows df) →
     total_count agg = length (rows df)).
Proof.
  intros H1 H2. eexists. split; [by apply reporting_aggregate_Ret|].
  unfold keys_of, total_count. cbn [rows]. rewrite keys_of_group_rows.
  set (ks := group_index Crime_type Broad_Outcome_Category df).
  assert (total : sum_list_with count_of
            ((λ k, group_row Crime_type Broad_Outcome_Category Count k
                     (group_size Crime_type Broad_Outcome_Category df k)) <$> ks)
          = length (filter (λ r, key_notnull (report_key r) = true) (rows df))).
  { rewrite sum_list_with_fmap.
    rewrite (sum_list_with_pointwise _
               (λ k, length (filter (λ j, j = k)
                  (grouped_keys Crime_type Broad_Outcome_Category df)))).
    - rewrite sum_group_sizes.
      + unfold grouped_keys. apply length_filter_fmap.
      + apply group_index_NoDup.
      + intros k Hk. unfold ks, group_index.
        by rewrite merge_sort_Permutation, elem_of_remove_dups.
    - apply Forall_forall. intros k _. unfold count_of.
      destruct (group_row_cells k
        (group_size Crime_type Broad_Outcome_Category df k)) as [_ ->].
      by rewrite Nat2Z.id. }
  split; [apply group_index_NoDup|].
  split; [apply elem_of_group_index|].
  split; [|split; [exact total|]].
  - apply Forall_fmap, Forall_forall. intros k Hk. unfold compose, count_of.
    destruct (group_row_cells k
      (group_size Crime_type Broad_Outcome_Category df k)) as [Hkey ->].
    rewrite Nat2Z.id, group_size_rows
      by (by apply elem_of_group_index in Hk as [? _]).
    f_equal. apply list_filter_iff. intros r'. unfold report_key.
    by rewrite (proj1 (group_row_cells k _)).
  - intros Hall. rewrite total. f_equal.
    clear -Hall. induction Hall as [|r l Hr _ IH]; [done|].
    by rewrite filter_cons_True, IH.
Qed.

(** C10. On a table holding 'Crime type' and 'Broad Outcome Category', the
    aggregation returns its rows in strictly ascending order of the key pair,
    compared on 'Crime type' first and on 'Broad Outcome Category' next. *)
Theorem reporting_aggregate_sorted (df : DataFrame) :
  has_column Crime_type df = true →
  has_column Broad_Outcome_Category df = true →
  ∃ agg,
    reporting_aggregate df = Ret agg ∧
    StronglySorted key_lt (keys_of agg).
Proof.
  intros H1 H2. eexists. split; [by apply reporting_aggregate_Ret|].
  unfold keys_of. cbn [rows]. rewrite keys_of_group_rows.
  apply group_index_sorted.
Qed.

Lemma reporting_aggregate_counts_witness :
  has_column Crime_type Sample_report.processed_complete = true ∧
  has_column Broad_Outcome_Category Sample_report.processed_complete = true ∧
  Forall (λ r, key_notnull (report_key r) = true)
         (rows Sample_report.processed_complete) ∧
  ∃ agg,
    reporting_aggregate Sample_report.processed_complete = Ret agg ∧
    NoDup (keys_of agg) ∧
    total_count agg = length (rows Sample_report.processed_complete).
Proof.
  split; [reflexivity|]. split; [reflexivity|].
  assert (Forall (λ r, key_notnull (report_key r) = true)
                 (rows Sample_report.processed_complete)) as Hall.
  { repeat constructor. }
  split; [exact Hall|].
  destruct (reporting_aggregate_counts Sample_report.processed_complete
              eq_refl eq_refl)
    as (agg & Hret & Hnd & _ & _ & _ & Hsum).
  exists agg. split; [exact Hret|]. split; [exact Hnd|]. exact (Hsum Hall).
Defined.

Lemma reporting_aggregate_sorted_witness :
  ∃ agg,
    reporting_aggregate Sample_report.processed_complete = Ret agg ∧
    StronglySorted key_lt (keys_of agg).
Proof.
  exact (reporting_aggregate_sorted Sample_report.processed_complete
           eq_refl eq_refl).
Defined.


(** ** The scenarios of the specification *)

Example scenario_raw_category_is_used :
  ∃ staged processed agg,
    Scenario.transforms Scenario.primary Scenario.outcomes
      = Ret (staged, processed, agg) ∧
    Scenario.view [Crime_ID; Outcome_type] staged = [[Str "1"; NaN]] ∧
    Scenario.view [Final_Outcome; Broad_Outcome_Category] processed =
      [[Str "Investigation complete; no suspect identified";
        Str "No Further Action"]] ∧
    Scenario.view [Crime_type; Broad_Outcome_Category; Count] agg =
      [[Str "Burglary"; Str "No Further Action"; Int 1]].
Proof. eexists _, _, _. split; [reflexivity|]. by vm_compute. Qed.

Example scenario_outcome_type_overrides :
  ∃ staged processed agg,
    Scenario.transforms Scenario.primary Scenario.outcomes_resolved
      = Ret (staged, processed, agg) ∧
    Scenario.view [Final_Outcome; Broad_Outcome_Category] processed =
      [[Str "Local resolution"; Str "Non-criminal Outcome"]] ∧
    Scenario.view [Crime_type; Broad_Outcome_Category; Count] agg =
      [[Str "Burglary"; Str "Non-criminal Outcome"; Int 1]].
Proof. eexists _, _, _. split; [reflexivity|]. by vm_compute. Qed.

(** * Further properties of the script's functions *)

(** ** del_values_street and merge_data: missing columns *)

Lemma filter_nil_inv {A} (P : A → Prop) `{∀ x, Decision (P x)} (l : list A) :
  filter P l = [] → Forall (λ x, ¬ P x) l.
Proof.
  induction l as [|x l IH]; [constructor|].
  rewrite filter_cons. destruct (decide (P x)); [done|].
  intros Hl. constructor; auto.
Qed.

Lemma filter_cons_inv {A} (P : A → Prop) `{∀ x, Decision (P x)} (l : list A) x k :
  filter P l = x :: k → x ∈ l ∧ P x.
Proof.
  intros Hf. assert (x ∈ filter P l) as Hx by (rewrite Hf; apply list_elem_of_here).
  apply list_elem_of_filter in Hx. tauto.
Qed.

Lemma has_column_false c df : has_column c df = false ↔ c ∉ columns df.
Proof. unfold has_column. apply bool_decide_eq_false. Qed.

(** X1. [del_values_street] returns exactly when the table has the three
    columns 'Reported by', 'Context' and 'Location'; otherwise it raises a
    KeyError for one of them that is missing.  When it returns, the table
    keeps its other columns in their order and all its rows in their order;
    in every row the three cells are gone and every other cell is as it
    was. *)
Theorem del_values_street_drops_three_columns (df : DataFrame) :
  match del_values_street df with
  | Ret df' =>
      Forall (λ c, has_column c df = true) cols_to_delete ∧
      columns df' = filter (λ c, c ∉ cols_to_delete) (columns df) ∧
      Forall (λ c, has_column c df' = false) cols_to_delete ∧
      length (rows df') = length (rows df) ∧
      ∀ (i : nat) (r : row), rows df !! i = Some r →
        ∃ r', rows df' !! i = Some r' ∧
          ∀ c, cell r' c = if decide (c ∈ cols_to_delete) then NaN else cell r c
  | Raise e =>
      exn_cls e = KeyError ∧
      ∃ c, c ∈ cols_to_delete ∧ has_column c df = false
  end.
Proof.
  unfold del_values_street, drop_columns.
  destruct (filter (λ c, c ∉ columns df) cols_to_delete) as [|c k] eqn:Hf.
  - apply filter_nil_inv in Hf. cbn [columns rows].
    split; [|split; [done|split; [|split]]].
    + eapply Forall_impl; [exact Hf|]. intros c Hc. apply has_column_true.
      by destruct (decide (c ∈ columns df)).
    + apply Forall_forall. intros c Hc. apply has_column_false. cbn [columns].
      rewrite list_elem_of_filter. tauto.
    + by rewrite length_fmap.
    + intros i r Hi. eexists. split; [by rewrite list_lookup_fmap, Hi|].
      intros c. apply cell_delete_all.
  - apply filter_cons_inv in Hf as [Hc Hnot]. split; [done|].
    exists c. split; [done|]. by apply has_column_false.
Qed.


(** ** finaloutcome and the processing transform *)

Lemma finaloutcome_inv df df' :
  finaloutcome df = Ret df' →
  df' = setitem Final_Outcome (resolved_outcome <$> rows df) df ∧
  Forall (λ r, finaloutcome_row df r = Ret (resolved_outcome r)) (rows df).
Proof.
  unfold finaloutcome, apply_rows.
  destruct (mapM _ _) as [vs|e] eqn:Hvs; simpl; [|done].
  intros [= <-]. apply mapM_Ret_inv in Hvs.
  assert (vs = resolved_outcome <$> rows df ∧
          Forall (λ r, finaloutcome_row df r = Ret (resolved_outcome r)) (rows df))
    as [-> Hall].
  { induction Hvs as [|r v l k Hrv _ [-> IH]]; [by split|].
    pose proof (finaloutcome_row_Ret _ _ _ Hrv) as ->.
    split; [done|]. by constructor. }
  done.
Qed.

Lemma finaloutcome_of_rows df :
  Forall (λ r, finaloutcome_row df r = Ret (resolved_outcome r)) (rows df) →
  finaloutcome df = Ret (setitem Final_Outcome (resolved_outcome <$> rows df) df).
Proof.
  intros Hall. unfold finaloutcome, apply_rows.
  by rewrite (mapM_Ret_intro _ resolved_outcome).
Qed.

Lemma finaloutcome_row_returns df r :
  (∃ v, finaloutcome_row df r = Ret v) ↔
  has_column Outcome_type df = true ∧
  (has_column Last_outcome_category df = true ∨
   notnull (cell r Outcome_type) = true).
Proof.
  unfold finaloutcome_row, getitem.
  destruct (has_column Outcome_type df); cbn [mbind result_bind].
  - destruct (notnull (cell r Outcome_type)).
    + split; [auto|]. eauto.
    + destruct (has_column Last_outcome_category df).
      * split; [auto|]. eauto.
      * split; [by intros [v Hv]|]. by intros [_ [?|?]].
  - split; [by intros [v Hv]|]. by intros [? _].
Qed.

Lemma setitem_rows c (f : row → value) df :
  rows (setitem c (f <$> rows df) df) = (λ r, <[c := f r]> r) <$> rows df.
Proof. unfold setitem. cbn [rows]. apply zip_with_fmap_same. Qed.

(** X3. On a table with at least one row, [finaloutcome] returns exactly
    when the table has the column 'Outcome type' and either has the column
    'Last outcome category' or has no null 'Outcome type': the fallback column
    is read only for the rows whose outcome type is null. *)
Theorem finaloutcome_reads_fallback_on_null_only (df : DataFrame) :
  rows df ≠ [] →
  (∃ df', finaloutcome df = Ret df') ↔
  has_column Outcome_type df = true ∧
  (has_column Last_outcome_category df = true ∨
   Forall (λ r, notnull (cell r Outcome_type) = true) (rows df)).
Proof.
  intros Hne. split.
  - intros [df' [_ Hall]%finaloutcome_inv].
    assert (Forall (λ r, has_column Outcome_type df = true ∧
              (has_column Last_outcome_category df = true ∨
               notnull (cell r Outcome_type) = true)) (rows df)) as Hrows.
    { eapply Forall_impl; [exact Hall|]. intros r Hr. cbv beta in Hr.
      apply finaloutcome_row_returns. by exists (resolved_outcome r). }
    destruct (rows df) as [|r l] eqn:Hl; [done|].
    split; [by apply Forall_cons in Hrows as [[? _] _]|].
    destruct (has_column Last_outcome_category df); [by left|right].
    eapply Forall_impl; [exact Hrows|]. by intros r' [_ [?|?]].
  - intros [Hot Hloc]. eexists. apply finaloutcome_of_rows.
    apply Forall_forall. intros r Hr.
    assert (∃ v, finaloutcome_row df r = Ret v) as [v Hv].
    { apply finaloutcome_row_returns. split; [done|].
      destruct Hloc as [?|Hall]; [by left|right].
      rewrite Forall_forall in Hall. auto. }
    by rewrite Hv, (finaloutcome_row_Ret _ _ _ Hv).
Qed.

(** X4. When [finaloutcome] returns, the table has the same rows in the
    same order, each changed in its 'Final Outcome' cell only; the column
    'Final Outcome' is appended on the right if the table did not have it and
    the column list is unchanged if it did. *)
Theorem finaloutcome_touches_one_column (df df' : DataFrame) :
  finaloutcome df = Ret df' →
  columns df' = (if has_column Final_Outcome df then columns df
                 else columns df ++ [Final_Outcome]) ∧
  length (rows df') = length (rows df) ∧
  ∀ (i : nat) (r : row), rows df !! i = Some r →
    ∃ r', rows df' !! i = Some r' ∧
      ∀ c, c ≠ Final_Outcome → r' !! c = r !! c.
Proof.
  intros [-> _]%finaloutcome_inv. split; [done|].
  rewrite setitem_rows. split; [by rewrite length_fmap|].
  intros i r Hi. eexists. split; [by rewrite list_lookup_fmap, Hi|].
  intros c Hc. by rewrite lookup_insert_ne.
Qed.

Lemma setitem_has_column c vs df : has_column c (setitem c vs df) = true.
Proof.
  apply has_column_true. unfold setitem. cbn [columns].
  destruct (has_column c df) eqn:Hc; [by apply has_column_true|].
  apply elem_of_app. right. apply list_elem_of_here.
Qed.

Lemma setitem_keeps_columns c c' vs df :
  has_column c' df = true → has_column c' (setitem c vs df) = true.
Proof.
  intros Hc'%has_column_true. apply has_column_true. unfold setitem.
  cbn [columns]. destruct (has_column c df); [done|].
  apply elem_of_app. by left.
Qed.

Lemma setitem_present c vs df :
  has_column c df = true → columns (setitem c vs df) = columns df.
Proof. intros Hc. unfold setitem. cbn [columns]. by rewrite Hc. Qed.

Lemma frame_eq (d1 d2 : DataFrame) :
  columns d1 = columns d2 → rows d1 = rows d2 → d1 = d2.
Proof. destruct d1, d2. simpl. by intros -> ->. Qed.

(** The row the processing transform makes of a row. *)
Lemma processing_transform_inv df df' :
  processing_transform df = Ret df' →
  ∃ d, finaloutcome df = Ret d ∧
    columns df' = columns (setitem Broad_Outcome_Category [] d) ∧
    rows df' = (λ r, <[Broad_Outcome_Category :=
                         Str (categorize_outcome (resolved_outcome r))]>
                       (<[Final_Outcome := resolved_outcome r]> r)) <$> rows df.
Proof.
  unfold processing_transform.
  destruct (finaloutcome df) as [d|e] eqn:Hd; cbn [mbind result_bind]; [|done].
  intros Hcat. exists d. split; [done|].
  pose proof (apply_categorization_Ret _ _ Hcat) as Hrows.
  apply finaloutcome_inv in Hd as [-> _].
  split.
  - unfold apply_categorization, getcolumn in Hcat.
    rewrite setitem_has_column in Hcat. cbn [mbind result_bind] in Hcat.
    by injection Hcat as <-.
  - rewrite Hrows, setitem_rows, <-list_fmap_compose.
    apply list_fmap_ext. intros _ r _. unfold compose.
    by rewrite cell_insert_eq.
Qed.

Lemma categorize_outcome_label v : categorize_outcome v ∈ broad_categories.
Proof.
  unfold categorize_outcome.
  destruct (py_in v no_action_outcomes); [compute_done|].
  destruct (py_in v non_criminal_outcomes); [compute_done|].
  destruct (py_in v public_interest_outcomes); compute_done.
Qed.

(** X5. The processing transform fails only in [finaloutcome]: once the
    resolved outcome is computed the categorisation cannot raise.  In the
    table it returns, every row carries under 'Broad Outcome Category' one of
    the four labels, never a null, and that label is the category of the
    row's 'Final Outcome'. *)
Theorem processing_transform_labels_every_row (df : DataFrame) :
  match finaloutcome df with
  | Ret _ =>
      ∃ df', processing_transform df = Ret df' ∧
        length (rows df') = length (rows df) ∧
        Forall (λ r, ∃ label, label ∈ broad_categories ∧
                  cell r Broad_Outcome_Category = Str label ∧
                  label = categorize_outcome (cell r Final_Outcome))
               (rows df')
  | Raise e => processing_transform df = Raise e
  end.
Proof.
  destruct (finaloutcome df) as [d|e] eqn:Hd.
  - assert (∃ df', processing_transform df = Ret df') as [df' Hdf'].
    { unfold processing_transform. rewrite Hd. cbn [mbind result_bind].
      unfold apply_categorization, getcolumn.
      apply finaloutcome_inv in Hd as [-> _].
      rewrite setitem_has_column. cbn [mbind result_bind]. eauto. }
    exists df'. split; [done|].
    apply processing_transform_inv in Hdf' as (d' & _ & _ & ->).
    split; [by rewrite length_fmap|].
    apply Forall_fmap, Forall_forall. intros r _. unfold compose.
    exists (categorize_outcome (resolved_outcome r)).
    split; [apply categorize_outcome_label|].
    rewrite cell_insert_eq. split; [done|].
    rewrite cell_insert_ne by done. by rewrite cell_insert_eq.
  - unfold processing_transform. by rewrite Hd.
Qed.

Lemma finaloutcome_row_grows df df' r r' v :
  (∀ c, has_column c df = true → has_column c df' = true) →
  cell r' Outcome_type = cell r Outcome_type →
  cell r' Last_outcome_category = cell r Last_outcome_category →
  finaloutcome_row df r = Ret v → finaloutcome_row df' r' = Ret v.
Proof.
  intros Hcols Hot Hloc. unfold finaloutcome_row, getitem.
  destruct (has_column Outcome_type df) eqn:H1; cbn [mbind result_bind]; [|done].
  rewrite (Hcols _ H1). cbn [mbind result_bind]. rewrite Hot.
  destruct (notnull (cell r Outcome_type)); [done|].
  destruct (has_column Last_outcome_category df) eqn:H2; [|done].
  by rewrite (Hcols _ H2), Hloc.
Qed.

(** X6. Processing is idempotent on a table with rows: if the processing
    transform returns a table, the transform applied to that table returns
    the same table.  The two derived columns are overwritten in place with the
    values they already hold. *)
Theorem processing_transform_idempotent (df df' : DataFrame) :
  rows df ≠ [] →
  processing_transform df = Ret df' →
  processing_transform df' = Ret df'.
Proof.
  intros _ Hp. pose proof Hp as (d & Hd & Hcols & Hrows)%processing_transform_inv.
  pose proof Hd as [-> Hall]%finaloutcome_inv.
  pose (v := resolved_outcome).
  pose (c := λ r, Str (categorize_outcome (v r))).
  pose (once := λ r : row, <[Broad_Outcome_Category := c r]>
                             (<[Final_Outcome := v r]> r)).
  change (rows df' = once <$> rows df) in Hrows.
  assert (∀ r, resolved_outcome (once r) = v r) as Hres.
  { intros r. unfold resolved_outcome, once.
    by rewrite !cell_insert_ne by done. }
  assert (∀ r, once (once r) = once r) as Honce.
  { intros r. unfold once at 1. unfold c. rewrite Hres.
    fold (c r). unfold once.
    apply map_eq. intros k. rewrite !lookup_insert.
    repeat case_decide; simplify_eq; done. }
  assert (has_column Final_Outcome df' = true) as Hfo.
  { apply has_column_true. rewrite Hcols. apply has_column_true.
    apply setitem_keeps_columns, setitem_has_column. }
  assert (has_column Broad_Outcome_Category df' = true) as Hboc.
  { apply has_column_true. rewrite Hcols. apply has_column_true.
    apply setitem_has_column. }
  assert (∀ k, has_column k df = true → has_column k df' = true) as Hgrow.
  { intros k Hk. apply has_column_true. rewrite Hcols. apply has_column_true.
    by do 2 apply setitem_keeps_columns. }
  assert (finaloutcome df' =
            Ret (setitem Final_Outcome (resolved_outcome <$> rows df') df'))
    as Hsecond.
  { apply finaloutcome_of_rows. rewrite Hrows.
    apply Forall_fmap. eapply Forall_impl; [exact Hall|].
    intros r Hr. unfold compose. rewrite Hres.
    eapply finaloutcome_row_grows; [exact Hgrow| | |exact Hr];
      unfold once; by rewrite !cell_insert_ne by done. }
  unfold processing_transform. rewrite Hsecond. cbn [mbind result_bind].
  unfold apply_categorization, getcolumn.
  rewrite setitem_has_column. cbn [mbind result_bind]. f_equal.
  rewrite <-list_fmap_compose.
  apply frame_eq.
  - rewrite setitem_present by by apply setitem_keeps_columns.
    by apply setitem_present.
  - rewrite (setitem_rows Broad_Outcome_Category
               (λ r, Str (categorize_outcome (cell r Final_Outcome)))).
    rewrite setitem_rows, <-list_fmap_compose.
    rewrite Hrows, <-list_fmap_compose.
    apply list_fmap_ext. intros _ r _. unfold compose.
    rewrite cell_insert_eq. apply (Honce r).
Qed.

(** ** The reporting aggregate *)

Lemma total_count_group_rows df :
  sum_list_with count_of
    ((λ k, group_row Crime_type Broad_Outcome_Category Count k
             (group_size Crime_type Broad_Outcome_Category df k))
     <$> group_index Crime_type Broad_Outcome_Category df)
  = length (filter (λ r, key_notnull (report_key r) = true) (rows df)).
Proof.
  rewrite sum_list_with_fmap.
  rewrite (sum_list_with_pointwise _
             (λ k, length (filter (λ j, j = k)
                (grouped_keys Crime_type Broad_Outcome_Category df)))).
  - rewrite sum_group_sizes.
    + unfold grouped_keys. apply length_filter_fmap.
    + apply group_index_NoDup.
    + intros k Hk. unfold group_index.
      by rewrite merge_sort_Permutation, elem_of_remove_dups.
  - apply Forall_forall. intros k _. unfold count_of.
    destruct (group_row_cells k
      (group_size Crime_type Broad_Outcome_Category df k)) as [_ ->].
    by rewrite Nat2Z.id.
Qed.

Lemma group_size_positive by1 by2 df k :
  k ∈ group_index by1 by2 df → 1 ≤ group_size by1 by2 df k.
Proof.
  unfold group_index, group_size.
  rewrite merge_sort_Permutation, elem_of_remove_dups. intros Hk.
  assert (k ∈ filter (λ j, j = k) (grouped_keys by1 by2 df)) as Hin.
  { by apply list_elem_of_filter. }
  destruct (filter _ _); [by apply elem_of_nil in Hin|]. simpl. lia.
Qed.

Lemma length_group_index by1 by2 df :
  length (group_index by1 by2 df) ≤ length (rows df).
Proof.
  unfold group_index. rewrite merge_sort_Permutation.
  transitivity (length (grouped_keys by1 by2 df)).
  - apply submseteq_length, NoDup_submseteq; [apply NoDup_remove_dups|].
    intros k. by rewrite elem_of_remove_dups.
  - unfold grouped_keys. etransitivity; [apply length_filter|].
    by rewrite length_fmap.
Qed.

(** X7. [reporting_aggregate] returns exactly when the table has the
    columns 'Crime type' and 'Broad Outcome Category' and raises a KeyError
    otherwise.  The table it returns has the three columns 'Crime type',
    'Broad Outcome Category', 'Count', at most as many rows as the input (none
    for an input without rows), and in every row two non-null keys and a
    count of at least 1: no group is empty. *)
Theorem reporting_aggregate_has_no_empty_group (df : DataFrame) :
  match reporting_aggregate df with
  | Ret agg =>
      has_column Crime_type df = true ∧
      has_column Broad_Outcome_Category df = true ∧
      columns agg = [Crime_type; Broad_Outcome_Category; Count] ∧
      length (rows agg) ≤ length (rows df) ∧
      Forall (λ r, key_notnull (report_key r) = true ∧ 1 ≤ count_of r)
             (rows agg)
  | Raise e =>
      exn_cls e = KeyError ∧
      (has_column Crime_type df = false ∨
       has_column Broad_Outcome_Category df = false)
  end.
Proof.
  unfold reporting_aggregate, groupby_size.
  destruct (has_column Crime_type df); [|by split; [|left]].
  destruct (has_column Broad_Outcome_Category df); [|by split; [|right]].
  cbn [columns rows]. do 3 (split; [done|]). split.
  - rewrite length_fmap. apply length_group_index.
  - apply Forall_fmap, Forall_forall. intros k Hk. unfold compose, count_of.
    destruct (group_row_cells k
      (group_size Crime_type Broad_Outcome_Category df k)) as [Hkey ->].
    unfold report_key. rewrite Hkey, Nat2Z.id. split.
    + by apply elem_of_group_index in Hk as [? _].
    + by apply group_size_positive.
Qed.

Lemma group_index_Permutation by1 by2 df1 df2 :
  rows df1 ≡ₚ rows df2 →
  group_index by1 by2 df1 = group_index by1 by2 df2.
Proof.
  intros Hperm. unfold group_index.
  apply (Sorted_unique key_le).
  - apply Sorted_merge_sort, _.
  - apply Sorted_merge_sort, _.
  - rewrite !merge_sort_Permutation.
    apply NoDup_Permutation; [apply NoDup_remove_dups..|].
    intros k. rewrite !elem_of_remove_dups. unfold grouped_keys.
    by rewrite Hperm.
Qed.

Lemma group_size_Permutation by1 by2 df1 df2 k :
  rows df1 ≡ₚ rows df2 →
  group_size by1 by2 df1 k = group_size by1 by2 df2 k.
Proof.
  intros Hperm. unfold group_size, grouped_keys.
  apply Permutation_length. by rewrite Hperm.
Qed.

(** X8. The aggregate does not depend on the order of the rows: two tables
    with the same columns whose rows are a permutation of each other are
    aggregated into the same table, rows in the same order. *)
Theorem reporting_aggregate_ignores_row_order (df1 df2 : DataFrame) :
  columns df1 = columns df2 →
  rows df1 ≡ₚ rows df2 →
  reporting_aggregate df1 = reporting_aggregate df2.
Proof.
  intros Hcols Hperm. unfold reporting_aggregate, groupby_size, has_column.
  rewrite Hcols. repeat case_match; try done.
  f_equal. f_equal.
  rewrite (group_index_Permutation _ _ df1 df2) by done.
  apply list_fmap_ext. intros _ k _.
  by rewrite (group_size_Permutation _ _ df1 df2).
Qed.

(** X9. Processing followed by aggregation: when the processing transform
    returns on a table that has the column 'Crime type', the aggregation of
    its result returns, and the counts add up to the number of records that
    have a crime type.  A null crime type is the only way for a record to be
    left out. *)
Theorem report_counts_records_with_crime_type (df processed : DataFrame) :
  has_column Crime_type df = true →
  processing_transform df = Ret processed →
  ∃ agg,
    reporting_aggregate processed = Ret agg ∧
    total_count agg =
      length (filter (λ r, notnull (cell r Crime_type) = true) (rows df)).
Proof.
  intros Hct (d & Hd & Hcols & Hrows)%processing_transform_inv.
  apply finaloutcome_inv in Hd as [-> _].
  assert (has_column Crime_type processed = true) as H1.
  { apply has_column_true. rewrite Hcols. apply has_column_true.
    by do 2 apply setitem_keeps_columns. }
  assert (has_column Broad_Outcome_Category processed = true) as H2.
  { apply has_column_true. rewrite Hcols. apply has_column_true.
    apply setitem_has_column. }
  eexists. split; [by apply reporting_aggregate_Ret|].
  unfold total_count. cbn [rows]. rewrite total_count_group_rows, Hrows.
  rewrite length_filter_fmap. f_equal. apply list_filter_iff. intros r.
  unfold report_key, group_key, key_notnull. cbn [fst snd].
  rewrite cell_insert_eq, !cell_insert_ne by done. cbn [notnull].
  by rewrite andb_true_r.
Qed.

(** ** The stateful functions *)

Section stage_functions.
Variable read_csv : string → result DataFrame.
Variable to_csv : DataFrame → string.
Variable write_error : string → option exn.

(** X10. On a file that exists and that [pd.read_csv] parses,
    [ingest_data] returns the table, leaves the files as they are and appends
    to the log its starting line and its completion line. *)
Theorem ingest_data_returns_table (file_path content : string)
    (df : DataFrame) (w : world) :
  files w !! file_path = Some content →
  read_csv content = Ret df →
  ingest_data read_csv file_path w =
    (Ret (Some df),
     {| files := files w;
        log := log w ++
          [ (INFO, "Starting data ingestion from " +:+ file_path);
            (INFO, "Data ingestion from " +:+ file_path
                   +:+ " completed successfully") ] |}).
Proof.
  intros Hsome Hread.
  unfold ingest_data, mbind, M_bind, logging, os_path_exists, try_except,
    pd_read_csv.
  simpl. rewrite Hsome. simpl. rewrite Hsome, Hread.
  unfold mret, M_ret. simpl. by rewrite <-app_assoc.
Qed.

(** X11. An exception of [pd.read_csv] that is not a ValueError is not
    caught by [ingest_data]: it reaches the caller, after the starting line
    alone was logged. *)
Theorem ingest_data_lets_other_errors_through (file_path content : string)
    (e : exn) (w : world) :
  files w !! file_path = Some content →
  read_csv content = Raise e →
  is_ValueError e = false →
  ingest_data read_csv file_path w =
    (Raise e,
     {| files := files w;
        log := log w ++
          [ (INFO, "Starting data ingestion from " +:+ file_path) ] |}).
Proof.
  intros Hsome Hread Hve.
  unfold ingest_data, mbind, M_bind, logging, os_path_exists, try_except,
    pd_read_csv.
  simpl. rewrite Hsome. simpl. by rewrite Hsome, Hread, Hve.
Qed.



End stage_functions.

(** Staging into a folder that cannot be written: the exception of the
    write is caught, no file appears and one ERROR line is logged. *)
Example stage_data_on_read_only_folder :
  stage_data Sample_files.to_csv Sample_files.read_only
      Sample_join.primary Sample_join.outcomes STAGED_DATA_FILE (World ∅ []) =
    (Ret (),
     World ∅
       [ (INFO, "Starting data staging");
         (ERROR, "Error during data staging: [Errno 13] Permission denied: "
                 +:+ "'./staged_cheshire_street.csv'") ]).
Proof. by vm_compute. Qed.

(** Staging with an outcomes table that has no 'Outcome type' column: the
    KeyError of the column selection is caught and logged as Python prints
    it. *)
Example stage_data_without_outcome_type :
  stage_data Sample_files.to_csv Sample_codec.write_error
      Sample_join.primary Sample_files.outcomes_without_type
      STAGED_DATA_FILE (World ∅ []) =
    (Ret (),
     World ∅
       [ (INFO, "Starting data staging");
         (ERROR, "Error during data staging: "
                 +:+ dquote +:+ "['Outcome type'] not in index" +:+ dquote) ]).
Proof. by vm_compute. Qed.

(** ** The orchestrator *)

Section orchestrator.
Variable read_csv : string → result DataFrame.
Variable to_csv : DataFrame → string.
Variable write_error : string → option exn.

Lemma try_except_unit_result (body : M unit) (handler : exn → M unit)
    (w : world) :
  (∀ e w', (handler e w').1 = Ret ()) →
  (try_except body is_Exception handler w).1 = Ret ().
Proof.
  intros Hh. unfold try_except, is_Exception.
  destruct (body w) as [[[]|e] w']; [done|apply Hh].
Qed.

Lemma main_files_lookup_ne fs p :
  p ≠ STAGED_DATA_FILE → p ≠ PROCESSING_DATA_FILE → p ≠ REPORTING_DATA_FILE →
  main_files read_csv to_csv write_error fs !! p = fs !! p.
Proof.
  intros H1 H2 H3. unfold main_files.
  repeat case_match; try done. by apply stages_files_lookup_ne.
Qed.

(** X15. No exception escapes [main], and a run changes no file other than
    the staged, the processed and the reporting file; the two input files in
    particular are left as they were. *)
Theorem main_contains_errors_and_writes_outputs_only (w : world) :
  (main read_csv to_csv write_error w).1 = Ret () ∧
  (∀ p, p ≠ STAGED_DATA_FILE → p ≠ PROCESSING_DATA_FILE →
        p ≠ REPORTING_DATA_FILE →
        files (main read_csv to_csv write_error w).2 !! p = files w !! p) ∧
  files (main read_csv to_csv write_error w).2 !! RAW_DATA_FILE = files w !! RAW_DATA_FILE ∧
  files (main read_csv to_csv write_error w).2 !! OUTCOMES_DATA_FILE
    = files w !! OUTCOMES_DATA_FILE.
Proof.
  assert (∀ p, p ≠ STAGED_DATA_FILE → p ≠ PROCESSING_DATA_FILE →
               p ≠ REPORTING_DATA_FILE →
               files (main read_csv to_csv write_error w).2 !! p = files w !! p) as Hkeep.
  { intros p H1 H2 H3. rewrite main_files_spec. by apply main_files_lookup_ne. }
  split; [|split; [exact Hkeep|]].
  - rewrite main_unfold, M_bind_split. cbn [fst snd logging].
    by apply try_except_unit_result.
  - pose proof input_paths_not_outputs as Hin.
    rewrite !Forall_cons in Hin.
    destruct Hin as ((Hr1 & Hr2 & Hr3) & (Ho1 & Ho2 & Ho3) & _).
    split; by apply Hkeep.
Qed.

Lemma ingest_outcome_value_errors_only o :
  (∀ content e, read_csv content = Raise e → is_ValueError e = true) →
  ∃ r, ingest_outcome read_csv o = Ret r.
Proof.
  intros Hve. unfold ingest_outcome. destruct o as [content|]; [|eauto].
  destruct (read_csv content) as [df|e] eqn:Hr; [eauto|].
  rewrite (Hve _ _ Hr). eauto.
Qed.

Lemma run_stages_result df df_outcomes w :
  (∀ content e, read_csv content = Raise e → is_ValueError e = true) →
  (run_stages read_csv to_csv write_error df df_outcomes w).1 = Ret ().
Proof.
  intros Hve. unfold run_stages.
  rewrite M_bind_split, (proj1 (stage_data_files to_csv write_error _ _ _ _)).
  rewrite M_bind_split, ingest_data_result.
  destruct (ingest_outcome_value_errors_only
              (files (stage_data to_csv write_error df df_outcomes STAGED_DATA_FILE w).2
                 !! STAGED_DATA_FILE) Hve) as [ds ->].
  rewrite M_bind_split, (proj1 (processing_data_files to_csv write_error _ _ _)).
  rewrite M_bind_split, ingest_data_result.
  match goal with
  | |- context [ingest_outcome read_csv ?o] =>
      destruct (ingest_outcome_value_errors_only o Hve) as [dp ->]
  end.
  apply reporting_data_files.
Qed.

(** X16. Failures of the stages never show in the outcome of [main]: when
    [pd.read_csv] raises nothing but ValueErrors, every run ends with the
    line 'Pipeline execution completed successfully', whatever happened in
    staging, processing and reporting. *)
Theorem main_logs_completion_despite_stage_failures (w : world) :
  (∀ content e, read_csv content = Raise e → is_ValueError e = true) →
  last (log (main read_csv to_csv write_error w).2)
    = Some (INFO, "Pipeline execution completed successfully").
Proof.
  intros Hve. rewrite main_unfold, M_bind_split. cbn [fst snd logging].
  set (w0 := {| files := files w;
                log := log w ++ [(INFO, "Pipeline execution started")] |}).
  unfold try_except.
  rewrite M_bind_split, ingest_data_result.
  destruct (ingest_outcome_value_errors_only (files w0 !! RAW_DATA_FILE) Hve)
    as [df ->].
  rewrite M_bind_split, ingest_data_result.
  match goal with
  | |- context [ingest_outcome read_csv ?o] =>
      destruct (ingest_outcome_value_errors_only o Hve) as [dfo ->]
  end.
  rewrite M_bind_split.
  assert (∀ w', (match df, dfo with
                 | Some df, Some df_outcomes =>
                     run_stages read_csv to_csv write_error df df_outcomes
                 | _, _ => mret ()
                 end w').1 = Ret ()) as Hbody.
  { intros w'. destruct df as [df|], dfo as [dfo|]; try done.
    by apply run_stages_result. }
  rewrite Hbody. unfold logging. cbn [fst snd log]. apply last_snoc.
Qed.

(** X17. When reading the primary file raises something else than a
    ValueError, [main] stops there: the outcomes file is not ingested, no
    stage runs, no file changes, and the log ends with one CRITICAL line
    carrying the exception's text. *)
Theorem main_logs_critical_on_ingestion_error (content : string) (e : exn)
    (w : world) :
  files w !! RAW_DATA_FILE = Some content →
  read_csv content = Raise e →
  is_ValueError e = false →
  main read_csv to_csv write_error w =
    (Ret (),
     {| files := files w;
        log := log w ++
          [ (INFO, "Pipeline execution started");
            (INFO, "Starting data ingestion from " +:+ RAW_DATA_FILE);
            (CRITICAL, "Pipeline execution failed: " +:+ exn_str e) ] |}).
Proof.
  intros Hsome Hread Hve.
  rewrite main_unfold.
  unfold ingest_data, mbind, M_bind, logging, os_path_exists, try_except,
    pd_read_csv, is_Exception.
  cbn [files log]. rewrite Hsome. cbn [negb bool_decide]. simpl.
  rewrite Hsome, Hread, Hve. simpl. by rewrite <-!app_assoc.
Qed.


Lemma ingest_outcome_Ret content df :
  read_csv content = Ret df →
  ingest_outcome read_csv (Some content) = Ret (Some df).
Proof. intros H. unfold ingest_outcome. by rewrite H. Qed.


End orchestrator.

(** ** The three transformations in sequence *)

Lemma processing_transform_total df :
  has_column Outcome_type df = true →
  has_column Last_outcome_category df = true →
  ∃ processed,
    processing_transform df = Ret processed ∧
    length (rows processed) = length (rows df) ∧
    has_column Broad_Outcome_Category processed = true ∧
    ∀ c, has_column c df = true → has_column c processed = true.
Proof.
  intros H1 H2. unfold processing_transform.
  rewrite finaloutcome_total by done. cbn [mbind result_bind].
  unfold apply_categorization, getcolumn.
  rewrite setitem_has_column. cbn [mbind result_bind].
  eexists. split; [done|]. split; [|split].
  - rewrite <-list_fmap_compose.
    rewrite (setitem_rows Broad_Outcome_Category
               (λ r, Str (categorize_outcome (cell r Final_Outcome)))).
    by rewrite length_fmap, setitem_rows, length_fmap.
  - apply setitem_has_column.
  - intros c Hc. by do 2 apply setitem_keeps_columns.
Qed.

(** X20. The expected columns are enough for the three transformations to
    succeed one after the other.  If the primary table has 'Crime ID',
    'Crime type', 'Last outcome category' and the three columns to drop, and
    no 'Outcome type', and the outcomes table has 'Crime ID' and 'Outcome
    type', then staging returns a table whose columns are the primary's
    without the three dropped ones, followed by 'Outcome type'; processing
    that table returns a table with as many rows; and aggregating the
    processed table returns.  Both 'Crime ID' columns are taken to hold
    text. *)
Theorem transforms_succeed_on_expected_columns (df df_outcomes : DataFrame) :
  primary_schema df = true →
  has_column Crime_type df = true →
  has_column Last_outcome_category df = true →
  outcomes_schema df_outcomes = true →
  text_column Crime_ID df = true →
  text_column Crime_ID df_outcomes = true →
  ∃ staged processed agg,
    stage_transform df df_outcomes = Ret staged ∧
    columns staged =
      filter (λ c, c ∉ cols_to_delete) (columns df) ++ [Outcome_type] ∧
    processing_transform staged = Ret processed ∧
    length (rows processed) = length (rows staged) ∧
    reporting_aggregate processed = Ret agg.
Proof.
  intros Hprim Hct Hloc Hout _ _.
  pose proof (stage_transform_Ret _ _ Hprim Hout) as Hst.
  set (staged := {| columns := filter (λ c, c ∉ cols_to_delete)
                                 (columns df ++ [Outcome_type]);
                    rows := trim <$> (rows df ≫= joined df df_outcomes) |})
    in *.
  assert (columns staged =
            filter (λ c, c ∉ cols_to_delete) (columns df) ++ [Outcome_type])
    as Hcols.
  { unfold staged. cbn [columns]. rewrite filter_app. f_equal. }
  assert (∀ c, c ∉ cols_to_delete → has_column c df = true →
               has_column c staged = true) as Hkept.
  { intros c Hc Hin%has_column_true. apply has_column_true. rewrite Hcols.
    apply elem_of_app. left. by apply list_elem_of_filter. }
  assert (has_column Outcome_type staged = true) as Hot.
  { apply has_column_true. rewrite Hcols. apply elem_of_app. right.
    apply list_elem_of_here. }
  destruct (processing_transform_total staged Hot)
    as (processed & Hp & Hlen & Hboc & Hgrow).
  { apply Hkept; [compute_done|done]. }
  exists staged, processed. eexists.
  split; [exact Hst|]. split; [exact Hcols|]. split; [exact Hp|].
  split; [exact Hlen|].
  apply reporting_aggregate_Ret; [|done].
  apply Hgrow, Hkept; [compute_done|done].
Qed.

Section success_path.
Variable read_csv : string → result DataFrame.
Variable to_csv : DataFrame → string.
Variable write_error : string → option exn.

(** X21. The successful run.  When both inputs are read, the three output
    paths can be written and each stage succeeds on the table read back from
    the file the previous stage wrote, the run leaves three files: the CSV
    text of the staged table, of the table made by processing the re-read
    staged file, and of the aggregate of the re-read processed file. *)
Theorem main_chains_stages_through_files (w : world) (c_raw c_out : string)
    (df df_outcomes staged staged_read processed processed_read agg : DataFrame) :
  write_error STAGED_DATA_FILE = None →
  write_error PROCESSING_DATA_FILE = None →
  write_error REPORTING_DATA_FILE = None →
  files w !! RAW_DATA_FILE = Some c_raw →
  read_csv c_raw = Ret df →
  files w !! OUTCOMES_DATA_FILE = Some c_out →
  read_csv c_out = Ret df_outcomes →
  stage_transform df df_outcomes = Ret staged →
  read_csv (to_csv staged) = Ret staged_read →
  processing_transform staged_read = Ret processed →
  read_csv (to_csv processed) = Ret processed_read →
  reporting_aggregate processed_read = Ret agg →
  files (main read_csv to_csv write_error w).2 =
    <[REPORTING_DATA_FILE := to_csv agg]>
      (<[PROCESSING_DATA_FILE := to_csv processed]>
         (<[STAGED_DATA_FILE := to_csv staged]> (files w))).
Proof.
  intros Hws Hwp Hwr Hraw Hdf Hout Hdfo Hst Hsr Hp Hpr Hagg.
  destruct output_paths_distinct as (Hsp & Hsr' & Hpr').
  rewrite main_files_spec. unfold main_files.
  rewrite Hraw, Hout.
  rewrite (ingest_outcome_Ret read_csv _ _ Hdf),
          (ingest_outcome_Ret read_csv _ _ Hdfo).
  unfold stages_files, write_result. rewrite Hst, Hws.
  rewrite lookup_insert_eq, (ingest_outcome_Ret read_csv _ _ Hsr).
  cbn [attribute mbind result_bind]. rewrite Hp, Hwp.
  rewrite lookup_insert_eq, (ingest_outcome_Ret read_csv _ _ Hpr).
  cbn [attribute mbind result_bind]. by rewrite Hagg, Hwr.
Qed.
End success_path.

(** ** Witnesses *)

Lemma finaloutcome_reads_fallback_on_null_only_witness :
  rows Sample_join.outcomes ≠ [] ∧
  has_column Last_outcome_category Sample_join.outcomes = false ∧
  ∃ df', finaloutcome Sample_join.outcomes = Ret df'.
Proof.
  assert (rows Sample_join.outcomes ≠ []) as Hne by done.
  split; [exact Hne|]. split; [reflexivity|].
  apply (finaloutcome_reads_fallback_on_null_only Sample_join.outcomes Hne).
  split; [reflexivity|]. right. repeat constructor.
Defined.

Lemma finaloutcome_touches_one_column_witness :
  ∃ df', finaloutcome Sample.staged = Ret df' ∧
    columns df' = columns Sample.staged ++ [Final_Outcome] ∧
    length (rows df') = length (rows Sample.staged).
Proof.
  eexists. split; [reflexivity|].
  destruct (finaloutcome_touches_one_column Sample.staged _ eq_refl)
    as (Hcols & Hlen & _).
  split; [exact Hcols|exact Hlen].
Defined.

Lemma processing_transform_idempotent_witness :
  rows Sample_report.staged ≠ [] ∧
  processing_transform Sample_report.staged = Ret Sample_report.processed ∧
  processing_transform Sample_report.processed = Ret Sample_report.processed.
Proof.
  assert (rows Sample_report.staged ≠ []) as Hne by done.
  assert (processing_transform Sample_report.staged
          = Ret Sample_report.processed) as H by (by vm_compute).
  split; [exact Hne|]. split; [exact H|].
  exact (processing_transform_idempotent _ _ Hne H).
Defined.


Lemma reporting_aggregate_ignores_row_order_witness :
  rows Sample_report.processed_complete
    ≡ₚ rows Sample_files.processed_reversed ∧
  reporting_aggregate Sample_report.processed_complete
    = reporting_aggregate Sample_files.processed_reversed.
Proof.
  assert (rows Sample_report.processed_complete
            ≡ₚ rows Sample_files.processed_reversed) as Hperm.
  { symmetry. apply reverse_Permutation. }
  split; [exact Hperm|].
  exact (reporting_aggregate_ignores_row_order
           Sample_report.processed_complete Sample_files.processed_reversed
           eq_refl Hperm).
Defined.

Lemma report_counts_records_with_crime_type_witness :
  length (rows Sample_report.staged) = 2 ∧
  ∃ agg,
    reporting_aggregate Sample_report.processed = Ret agg ∧
    total_count agg =
      length (filter (λ r, notnull (cell r Crime_type) = true)
                     (rows Sample_report.staged)).
Proof.
  split; [reflexivity|].
  apply (report_counts_records_with_crime_type Sample_report.staged).
  - reflexivity.
  - by vm_compute.
Defined.

Lemma ingest_data_returns_table_witness :
  ingest_data Sample_files.read_csv RAW_DATA_FILE Sample_files.inputs =
    (Ret (Some Sample_join.primary),
     {| files := files Sample_files.inputs;
        log := log Sample_files.inputs ++
          [ (INFO, "Starting data ingestion from " +:+ RAW_DATA_FILE);
            (INFO, "Data ingestion from " +:+ RAW_DATA_FILE
                   +:+ " completed successfully") ] |}).
Proof.
  exact (ingest_data_returns_table Sample_files.read_csv RAW_DATA_FILE
           "primary" Sample_join.primary Sample_files.inputs eq_refl eq_refl).
Defined.

Lemma ingest_data_lets_other_errors_through_witness :
  ingest_data Sample_files.read_csv RAW_DATA_FILE Sample_files.locked =
    (Raise (Exn OSError "Permission denied"),
     {| files := files Sample_files.locked;
        log := log Sample_files.locked ++
          [ (INFO, "Starting data ingestion from " +:+ RAW_DATA_FILE) ] |}).
Proof.
  exact (ingest_data_lets_other_errors_through Sample_files.read_csv
           RAW_DATA_FILE "unreadable" (Exn OSError "Permission denied")
           Sample_files.locked eq_refl eq_refl eq_refl).
Defined.

Lemma main_logs_completion_despite_stage_failures_witness :
  let w := World {[ RAW_DATA_FILE := "Crime ID";
                    OUTCOMES_DATA_FILE := "Crime ID" ]} [] in
  (ERROR, "Error during data staging: "
          +:+ dquote +:+ "['Outcome type'] not in index" +:+ dquote)
    ∈ log (main Sample_codec.read_csv Sample_codec.to_csv Sample_codec.write_error w).2 ∧
  last (log (main Sample_codec.read_csv Sample_codec.to_csv Sample_codec.write_error w).2)
    = Some (INFO, "Pipeline execution completed successfully").
Proof.
  intros w. split; [compute_done|].
  apply (main_logs_completion_despite_stage_failures
           Sample_codec.read_csv Sample_codec.to_csv Sample_codec.write_error w).
  intros content e. unfold Sample_codec.read_csv.
  case_bool_decide; [|done]. by intros [= <-].
Defined.

Lemma main_logs_critical_on_ingestion_error_witness :
  main Sample_files.read_csv Sample_files.to_csv Sample_codec.write_error Sample_files.locked =
    (Ret (),
     {| files := files Sample_files.locked;
        log := log Sample_files.locked ++
          [ (INFO, "Pipeline execution started");
            (INFO, "Starting data ingestion from " +:+ RAW_DATA_FILE);
            (CRITICAL, "Pipeline execution failed: "
                       +:+ exn_str (Exn OSError "Permission denied")) ] |}).
Proof.
  exact (main_logs_critical_on_ingestion_error Sample_files.read_csv
           Sample_files.to_csv
           Sample_codec.write_error "unreadable" (Exn OSError "Permission denied")
           Sample_files.locked eq_refl eq_refl eq_refl).
Defined.



Lemma transforms_succeed_on_expected_columns_witness :
  text_column Crime_ID Sample_join.primary = true ∧
  text_column Crime_ID Sample_join.outcomes = true ∧
  ∃ staged processed agg,
    stage_transform Sample_join.primary Sample_join.outcomes = Ret staged ∧
    columns staged =
      filter (λ c, c ∉ cols_to_delete) (columns Sample_join.primary)
      ++ [Outcome_type] ∧
    processing_transform staged = Ret processed ∧
    length (rows processed) = length (rows staged) ∧
    reporting_aggregate processed = Ret agg.
Proof.
  split; [reflexivity|]. split; [reflexivity|].
  exact (transforms_succeed_on_expected_columns
           Sample_join.primary Sample_join.outcomes
           eq_refl eq_refl eq_refl eq_refl eq_refl eq_refl).
Defined.

Lemma main_chains_stages_through_files_witness :
  files (main Sample_roundtrip.read_csv Sample_roundtrip.to_csv Sample_codec.write_error
           Sample_files.inputs).2 =
    <[REPORTING_DATA_FILE := "reporting"]>
      (<[PROCESSING_DATA_FILE := "processed"]>
         (<[STAGED_DATA_FILE := "staged"]> (files Sample_files.inputs))).
Proof.
  exact (main_chains_stages_through_files
           Sample_roundtrip.read_csv Sample_roundtrip.to_csv Sample_codec.write_error
           Sample_files.inputs "primary" "outcomes"
           Sample_join.primary Sample_join.outcomes
           Sample_roundtrip.staged Sample_roundtrip.staged
           Sample_roundtrip.processed Sample_roundtrip.processed
           Sample_roundtrip.agg
           eq_refl eq_refl eq_refl
           eq_refl eq_refl eq_refl eq_refl eq_refl eq_refl eq_refl eq_refl
           eq_refl).
Defined.
